(** * stimpl: the evaluator of [stimpl/runtime.py]

    A shallow embedding of the interpreter state ([State], [EmptyState]) and
    of [evaluate], followed by the properties of the evaluator.

    Python values are kept as the interpreter keeps them: an untyped payload
    ([Value]) travelling next to a type tag ([TypeTag]); nothing in
    [evaluate] forces the two to agree, so the model does not either.
    Integers are unbounded ([Z]), floats are IEEE binary64 ([float]). *)

From Stdlib Require Import ZArith String List Bool Lia Floats.
Import ListNotations.

Set Warnings "-register-all".

Local Open Scope Z_scope.

(** ** Payloads, type tags, errors *)

(** The Python objects that travel as payloads: [None], [int], [float],
    [str] and [bool]. *)
Inductive Value :=
| VNone
| VInt (n : Z)
| VFloat (x : float)
| VStr (s : string)
| VBool (b : bool).

(** Modelled from the spec: the classes of [stimpl.types], "exactly the five
    nominal tags", equal "by tag identity only". *)
Inductive TypeTag := Unit | Integer | FloatingPoint | String | Boolean.

Definition type_eqb (a b : TypeTag) : bool :=
  match a, b with
  | Unit, Unit | Integer, Integer | FloatingPoint, FloatingPoint
  | String, String | Boolean, Boolean => true
  | _, _ => false
  end.

(** Modelled from the spec: the exception classes of [stimpl.errors], the
    "three failure kinds"; messages are not kept. *)
Inductive Error := InterpSyntaxError | InterpTypeError | InterpMathError.

(** Modelled from the spec: the node classes of [stimpl.expression], with the
    field names [evaluate] matches on.  [Variable_] is the class [Variable];
    [Assign] holds the name of its [Variable] node, the only field of it that
    [evaluate] reads. *)
Inductive Expr :=
| Ren
| IntLiteral (literal : Z)
| FloatingPointLiteral (literal : float)
| StringLiteral (literal : string)
| BooleanLiteral (literal : bool)
| Print (to_print : Expr)
| Sequence (exprs : list Expr)
| Program (exprs : list Expr)
| Variable_ (variable_name : string)
| Assign (variable : string) (value : Expr)
| Add (left right : Expr)
| Subtract (left right : Expr)
| Multiply (left right : Expr)
| Divide (left right : Expr)
| And (left right : Expr)
| Or (left right : Expr)
| Not (expr : Expr)
| If (condition true false : Expr)
| Lt (left right : Expr)
| Lte (left right : Expr)
| Gt (left right : Expr)
| Gte (left right : Expr)
| Eq (left right : Expr)
| Ne (left right : Expr)
| While (condition body : Expr).

(** ** Interpreter state *)

(** [State(variable_name, variable_value, variable_type, next_state)] and
    [EmptyState()]: a chain of bindings, newest first. *)
Inductive State :=
| EmptyState
| StateNode (variable_name : string) (value : Value * TypeTag) (next_state : State).

(** [copy]: a new node with the same fields. *)
Definition copy (self : State) : State :=
  match self with
  | EmptyState => EmptyState
  | StateNode variable_name (variable_value, variable_type) next_state =>
      StateNode variable_name (variable_value, variable_type) next_state
  end.

Definition set_value (self : State) (variable_name : string)
           (variable_value : Value) (variable_type : TypeTag) : State :=
  StateNode variable_name (variable_value, variable_type) self.

Fixpoint get_value (self : State) (variable_name : string) : option (Value * TypeTag) :=
  match self with
  | EmptyState => None
  | StateNode name value next_state =>
      if String.eqb variable_name name then Some value
      else get_value next_state variable_name
  end.

(** ** Python's operators on payloads *)

(** [bool(v)], as [if v:], [while v:], [not v], [and] and [or] take it. *)
Definition truthy (v : Value) : bool :=
  match v with
  | VNone => false
  | VInt n => negb (n =? 0)
  | VFloat x => negb (PrimFloat.eqb x 0%float)
  | VStr EmptyString => false
  | VStr _ => true
  | VBool b => b
  end.

(** [v == 0]: numbers compare by value ([False] is the number 0, and both
    float zeros equal it), [None] and strings never equal a number. *)
Definition py_eq_zero (v : Value) : bool :=
  match v with
  | VNone => false
  | VInt n => n =? 0
  | VFloat x => PrimFloat.eqb x 0%float
  | VStr _ => false
  | VBool b => negb b
  end.

Definition py_and (l r : Value) : Value := if truthy l then r else l.
Definition py_or (l r : Value) : Value := if truthy l then l else r.
Definition py_not (v : Value) : Value := VBool (negb (truthy v)).

(** The remaining operators are given on two payloads of one kind, the kind
    being one the operator's type-tag guard lets through.  On any other pair
    Python raises an exception of its own or coerces between its numeric
    kinds; that is left out ([None] here, [Stuck] in [evaluate]), and
    [evaluate_wf] shows it is never reached from a state whose payloads fit
    their tags. *)
Definition py_add (l r : Value) : option Value :=
  match l, r with
  | VInt a, VInt b => Some (VInt (a + b))
  | VFloat a, VFloat b => Some (VFloat (a + b))
  | VStr a, VStr b => Some (VStr (String.append a b))
  | _, _ => None
  end.

Definition py_sub (l r : Value) : option Value :=
  match l, r with
  | VInt a, VInt b => Some (VInt (a - b))
  | VFloat a, VFloat b => Some (VFloat (a - b))
  | _, _ => None
  end.

Definition py_mul (l r : Value) : option Value :=
  match l, r with
  | VInt a, VInt b => Some (VInt (a * b))
  | VFloat a, VFloat b => Some (VFloat (a * b))
  | _, _ => None
  end.

(** [l / r]: a zero divisor is Python's own [ZeroDivisionError]. *)
Definition py_truediv (l r : Value) : option Value :=
  match l, r with
  | VFloat a, VFloat b =>
      if PrimFloat.eqb b 0%float then None else Some (VFloat (a / b))
  | _, _ => None
  end.

(** [l // r] on integers ([Z.div] rounds toward minus infinity, and gives the
    remainder the divisor's sign, as Python does). *)
Definition py_floordiv (l r : Value) : option Value :=
  match l, r with
  | VInt a, VInt b => if b =? 0 then None else Some (VInt (a / b))
  | _, _ => None
  end.

(** Orderings: integers by value, [bool] as the integers 0 and 1, floats by
    IEEE comparison, strings lexicographically (a [string] holds the bytes of
    the text, whose order is the order of the code points). *)
Definition py_lt (l r : Value) : option Value :=
  match l, r with
  | VInt a, VInt b => Some (VBool (a <? b))
  | VBool a, VBool b => Some (VBool (Z.b2z a <? Z.b2z b))
  | VStr a, VStr b => Some (VBool (String.ltb a b))
  | VFloat a, VFloat b => Some (VBool (PrimFloat.ltb a b))
  | _, _ => None
  end.

Definition py_le (l r : Value) : option Value :=
  match l, r with
  | VInt a, VInt b => Some (VBool (a <=? b))
  | VBool a, VBool b => Some (VBool (Z.b2z a <=? Z.b2z b))
  | VStr a, VStr b => Some (VBool (String.leb a b))
  | VFloat a, VFloat b => Some (VBool (PrimFloat.leb a b))
  | _, _ => None
  end.

Definition py_gt (l r : Value) : option Value := py_lt r l.
Definition py_ge (l r : Value) : option Value := py_le r l.

Definition py_eq (l r : Value) : option Value :=
  match l, r with
  | VInt a, VInt b => Some (VBool (a =? b))
  | VBool a, VBool b => Some (VBool (Bool.eqb a b))
  | VStr a, VStr b => Some (VBool (String.eqb a b))
  | VFloat a, VFloat b => Some (VBool (PrimFloat.eqb a b))
  | _, _ => None
  end.

Definition py_ne (l r : Value) : option Value :=
  match py_eq l r with
  | Some (VBool b) => Some (VBool (negb b))
  | _ => None
  end.

(** ** Effects: standard output, exceptions, divergence *)

(** A line written by [print]: the literal text ["Unit"], or the text of a
    payload ([f"{v}"]). *)
Inductive Line := LineUnit | LineOf (v : Value).

Inductive Outcome (A : Type) :=
| Returns (a : A)
| Raises (e : Error)
| Stuck
| OutOfFuel.

Arguments Returns {A} a.
Arguments Raises {A} e.
Arguments Stuck {A}.
Arguments OutOfFuel {A}.

(** A computation: the lines it printed, in order, and how it ended. *)
Definition M (A : Type) : Type := (list Line * Outcome A)%type.

Definition ret {A} (a : A) : M A := ([], Returns a).
Definition raise {A} (e : Error) : M A := ([], Raises e).
Definition stuck {A} : M A := ([], Stuck).
Definition out_of_fuel {A} : M A := ([], OutOfFuel).
Definition print (l : Line) : M unit := ([l], Returns tt).

Definition bind {A B} (m : M A) (f : A -> M B) : M B :=
  match m with
  | (o, Returns a) => let (o', r) := f a in (o ++ o', r)
  | (o, Raises e) => (o, Raises e)
  | (o, Stuck) => (o, Stuck)
  | (o, OutOfFuel) => (o, OutOfFuel)
  end.

Definition lift {A} (x : option A) : M A :=
  match x with
  | Some a => ret a
  | None => stuck
  end.

Notation "x <- c ;; k" := (bind c (fun x => k))
  (at level 61, c at next level, right associativity).
Notation "' p <- c ;; k" := (bind c (fun x => match x with p => k end))
  (at level 61, p pattern, c at next level, right associativity).
Notation "c ;;; k" := (bind c (fun _ => k))
  (at level 61, right associativity).

(** ** The evaluator *)

(** What [evaluate] returns: [(value, type, state)]. *)
Definition Result : Type := (Value * TypeTag * State)%type.

Section Loops.
Variable ev : Expr -> State -> M Result.

(** [for expr in exprs: variable_value, variable_type, new_state =
    evaluate(expr, new_state)], from the running triple [acc]. *)
Fixpoint for_each (exprs : list Expr) (acc : Result) : M Result :=
  match exprs with
  | [] => ret acc
  | expr :: rest =>
      let '(_, _, new_state) := acc in
      r <- ev expr new_state ;; for_each rest r
  end.

(** One pass of the [while] statement of the [While] case: the body, then
    the condition again; the body's value and both types are dropped. *)
Definition while_pass (condition body : Expr) (new_state : State) : M (Value * State) :=
  '(_, result_type, new_state) <- ev body new_state ;;
  '(if_cond_value, _, new_state) <- ev condition new_state ;;
  ret (if_cond_value, new_state).

(** [while(if_cond_value): ...], at most [fuel] passes. *)
Fixpoint while_loop (condition body : Expr) (fuel : nat)
         (if_cond_value : Value) (new_state : State) : M State :=
  if truthy if_cond_value then
    match fuel with
    | O => out_of_fuel
    | S fuel' =>
        '(if_cond_value, new_state) <- while_pass condition body new_state ;;
        while_loop condition body fuel' if_cond_value new_state
    end
  else ret new_state.
End Loops.

(** [evaluate(expression, state)].  Recursion follows the expression; [fuel]
    bounds the passes of each [while] statement only. *)
Fixpoint evaluate (fuel : nat) (expression : Expr) (state : State) {struct expression}
  : M Result :=
  match expression with
  | Ren => ret (VNone, Unit, state)
  | IntLiteral l => ret (VInt l, Integer, state)
  | FloatingPointLiteral l => ret (VFloat l, FloatingPoint, state)
  | StringLiteral l => ret (VStr l, String, state)
  | BooleanLiteral l => ret (VBool l, Boolean, state)

  | Print to_print =>
      '(printable_value, printable_type, new_state) <- evaluate fuel to_print state ;;
      print (match printable_type with
             | Unit => LineUnit
             | _ => LineOf printable_value
             end) ;;;
      ret (printable_value, printable_type, new_state)

  | Sequence exprs | Program exprs =>
      for_each (evaluate fuel) exprs (VNone, Unit, state)

  | Variable_ variable_name =>
      match get_value state variable_name with
      | None => raise InterpSyntaxError
      | Some (variable_value, variable_type) =>
          ret (variable_value, variable_type, state)
      end

  | Assign variable value =>
      '(value_result, value_type, new_state) <- evaluate fuel value state ;;
      let variable_type :=
        match get_value new_state variable with
        | Some (_, variable_type) => Some variable_type
        | None => None
        end in
      match variable_type with
      | Some variable_type =>
          if negb (type_eqb value_type variable_type) then raise InterpTypeError
          else ret (value_result, value_type,
                    set_value new_state variable value_result value_type)
      | None =>
          ret (value_result, value_type,
               set_value new_state variable value_result value_type)
      end

  | Add left_ right_ =>
      '(left_result, left_type, new_state) <- evaluate fuel left_ state ;;
      '(right_result, right_type, new_state) <- evaluate fuel right_ new_state ;;
      if negb (type_eqb left_type right_type) then raise InterpTypeError else
      match left_type with
      | Integer | String | FloatingPoint =>
          result <- lift (py_add left_result right_result) ;;
          ret (result, left_type, new_state)
      | _ => raise InterpTypeError
      end

  | Subtract left_ right_ =>
      '(left_result, left_type, new_state) <- evaluate fuel left_ state ;;
      '(right_result, right_type, new_state) <- evaluate fuel right_ new_state ;;
      if negb (type_eqb left_type right_type) then raise InterpTypeError else
      match left_type with
      | Integer | FloatingPoint =>
          result <- lift (py_sub left_result right_result) ;;
          ret (result, left_type, new_state)
      | _ => raise InterpTypeError
      end

  | Multiply left_ right_ =>
      '(left_result, left_type, new_state) <- evaluate fuel left_ state ;;
      '(right_result, right_type, new_state) <- evaluate fuel right_ new_state ;;
      if negb (type_eqb left_type right_type) then raise InterpTypeError else
      match left_type with
      | Integer | FloatingPoint =>
          result <- lift (py_mul left_result right_result) ;;
          ret (result, left_type, new_state)
      | _ => raise InterpTypeError
      end

  | Divide left_ right_ =>
      '(left_result, left_type, new_state) <- evaluate fuel left_ state ;;
      '(right_result, right_type, new_state) <- evaluate fuel right_ new_state ;;
      if py_eq_zero right_result then raise InterpMathError else
      if negb (type_eqb left_type right_type) then raise InterpTypeError else
      match left_type with
      | FloatingPoint =>
          result <- lift (py_truediv left_result right_result) ;;
          ret (result, left_type, new_state)
      | Integer =>
          result <- lift (py_floordiv left_result right_result) ;;
          ret (result, left_type, new_state)
      | _ => raise InterpTypeError
      end

  | And left_ right_ =>
      '(left_value, left_type, new_state) <- evaluate fuel left_ state ;;
      '(right_value, right_type, new_state) <- evaluate fuel right_ new_state ;;
      if negb (type_eqb left_type right_type) then raise InterpTypeError else
      match left_type with
      | Boolean => ret (py_and left_value right_value, left_type, new_state)
      | _ => raise InterpTypeError
      end

  | Or left_ right_ =>
      '(left_value, left_type, new_state) <- evaluate fuel left_ state ;;
      '(right_value, right_type, new_state) <- evaluate fuel right_ new_state ;;
      if negb (type_eqb left_type right_type) then raise InterpTypeError else
      match left_type with
      | Boolean => ret (py_or left_value right_value, left_type, new_state)
      | _ => raise InterpTypeError
      end

  | Not expr =>
      '(variable_value, variable_type, new_state) <- evaluate fuel expr state ;;
      if type_eqb variable_type Boolean
      then ret (py_not variable_value, Boolean, new_state)
      else raise InterpTypeError

  | If condition true_ false_ =>
      '(variable_value, variable_type, new_state) <- evaluate fuel condition state ;;
      if negb (type_eqb variable_type Boolean) then raise InterpTypeError else
      if truthy variable_value
      then evaluate fuel true_ new_state
      else evaluate fuel false_ new_state

  | Lt left_ right_ =>
      '(left_value, left_type, new_state) <- evaluate fuel left_ state ;;
      '(right_value, right_type, new_state) <- evaluate fuel right_ new_state ;;
      if negb (type_eqb left_type right_type) then raise InterpTypeError else
      result <- match left_type with
                | Integer | Boolean | String | FloatingPoint =>
                    lift (py_lt left_value right_value)
                | Unit => ret (VBool false)
                end ;;
      ret (result, Boolean, new_state)

  | Lte left_ right_ =>
      '(left_value, left_type, new_state) <- evaluate fuel left_ state ;;
      '(right_value, right_type, new_state) <- evaluate fuel right_ new_state ;;
      if negb (type_eqb left_type right_type) then raise InterpTypeError else
      result <- match left_type with
                | Integer | Boolean | String | FloatingPoint =>
                    lift (py_le left_value right_value)
                | Unit => ret (VBool true)
                end ;;
      ret (result, Boolean, new_state)

  | Gt left_ right_ =>
      '(left_value, left_type, new_state) <- evaluate fuel left_ state ;;
      '(right_value, right_type, new_state) <- evaluate fuel right_ new_state ;;
      if negb (type_eqb left_type right_type) then raise InterpTypeError else
      result <- match left_type with
                | Integer | Boolean | String | FloatingPoint =>
                    lift (py_gt left_value right_value)
                | Unit => ret (VBool false)
                end ;;
      ret (result, Boolean, new_state)

  | Gte left_ right_ =>
      '(left_value, left_type, new_state) <- evaluate fuel left_ state ;;
      '(right_value, right_type, new_state) <- evaluate fuel right_ new_state ;;
      if negb (type_eqb left_type right_type) then raise InterpTypeError else
      result <- match left_type with
                | Integer | Boolean | String | FloatingPoint =>
                    lift (py_ge left_value right_value)
                | Unit => ret (VBool true)
                end ;;
      ret (result, Boolean, new_state)

  | Eq left_ right_ =>
      '(left_value, left_type, new_state) <- evaluate fuel left_ state ;;
      '(right_value, right_type, new_state) <- evaluate fuel right_ new_state ;;
      if negb (type_eqb left_type right_type) then raise InterpTypeError else
      if type_eqb left_type Unit then ret (VBool true, Boolean, new_state) else
      result <- lift (py_eq left_value right_value) ;;
      ret (result, Boolean, new_state)

  | Ne left_ right_ =>
      '(left_value, left_type, new_state) <- evaluate fuel left_ state ;;
      '(right_value, right_type, new_state) <- evaluate fuel right_ new_state ;;
      if negb (type_eqb left_type right_type) then raise InterpTypeError else
      if type_eqb left_type Unit then ret (VBool false, Boolean, new_state) else
      result <- lift (py_ne left_value right_value) ;;
      ret (result, Boolean, new_state)

  | While condition body =>
      '(if_cond_value, if_cond_type, new_state) <- evaluate fuel condition state ;;
      if negb (type_eqb if_cond_type Boolean) then raise InterpTypeError else
      new_state <- while_loop (evaluate fuel) condition body fuel
                              if_cond_value new_state ;;
      ret (VBool false, Boolean, new_state)
  end.

(** [run_stimpl(program)], with [debug] left at [False]. *)
Definition run_stimpl (fuel : nat) (program : Expr) : M Result :=
  evaluate fuel program EmptyState.

(** ** Vocabulary of the statements *)

(** The bindings of a state, newest first. *)
Fixpoint chain (s : State) : list (string * (Value * TypeTag)) :=
  match s with
  | EmptyState => []
  | StateNode name value next_state => (name, value) :: chain next_state
  end.

(** [s'] is [s] with bindings added in front. *)
Definition extends (s s' : State) : Prop :=
  exists newer, chain s' = newer ++ chain s.

(** The payload is of the Python kind its tag stands for. *)
Definition fits (v : Value) (t : TypeTag) : bool :=
  match t, v with
  | Unit, VNone | Integer, VInt _ | FloatingPoint, VFloat _
  | String, VStr _ | Boolean, VBool _ => true
  | _, _ => false
  end.

Fixpoint state_fits (s : State) : bool :=
  match s with
  | EmptyState => true
  | StateNode _ (v, t) next_state => fits v t && state_fits next_state
  end.

Definition result_fits (r : Result) : Prop :=
  fits (fst (fst r)) (snd (fst r)) = true /\ state_fits (snd r) = true.

(** The floor of the rational [a / b], in the spec's words: the integer [q]
    with [q <= a / b < q + 1], cleared of the denominator. *)
Definition floor_of_quotient (a b q : Z) : Prop :=
  (0 < b -> q * b <= a < (q + 1) * b) /\ (b < 0 -> (q + 1) * b < a <= q * b).

(** The six comparison nodes. *)
Definition comparison_nodes : list (Expr -> Expr -> Expr) :=
  [Lt; Lte; Gt; Gte; Eq; Ne].

(** The passes of a [While] that ends, told from the condition's last payload
    [v] and the state [s] it left: [k] passes later the condition is falsy,
    the lines printed on the way are [o], the state is [s'].  Each pass is
    the body, then the condition; what the body returns ([bv], [bt]) and the
    type of the condition ([ct]) play no part. *)
Inductive passes (fuel : nat) (condition body : Expr)
  : nat -> Value -> State -> list Line -> State -> Prop :=
| passes_done v s :
    truthy v = false ->
    passes fuel condition body 0 v s [] s
| passes_more k v s ob bv bt s1 oc cv ct s2 o s' o' :
    truthy v = true ->
    evaluate fuel body s = (ob, Returns (bv, bt, s1)) ->
    evaluate fuel condition s1 = (oc, Returns (cv, ct, s2)) ->
    passes fuel condition body k cv s2 o s' ->
    o' = ob ++ oc ++ o ->
    passes fuel condition body (S k) v s o' s'.

(** The nodes directly below a node. *)
Definition children (e : Expr) : list Expr :=
  match e with
  | Ren | IntLiteral _ | FloatingPointLiteral _ | StringLiteral _
  | BooleanLiteral _ | Variable_ _ => []
  | Print e1 | Assign _ e1 | Not e1 => [e1]
  | Sequence es | Program es => es
  | Add l r | Subtract l r | Multiply l r | Divide l r | And l r | Or l r
  | Lt l r | Lte l r | Gt l r | Gte l r | Eq l r | Ne l r | While l r => [l; r]
  | If c t f => [c; t; f]
  end.

(** [m'] is [m] run with more fuel: unless [m] ran out, they agree. *)
Definition stable {A} (m m' : M A) : Prop := snd m <> OutOfFuel -> m' = m.

(** [ensures P Q m]: if [m] returns [a] then [P a]; if it is stuck then [Q]. *)
Definition ensures {A} (P : A -> Prop) (Q : Prop) (m : M A) : Prop :=
  match snd m with
  | Returns a => P a
  | Stuck => Q
  | _ => True
  end.

(** ** Vocabulary of the further properties *)

(** Every name bound in [s] is bound in [s'] with the same type. *)
Definition keeps_types (s s' : State) : Prop :=
  forall name v t,
    get_value s name = Some (v, t) -> exists v', get_value s' name = Some (v', t).

(** All the bindings of a name, shadowed ones included, carry one type. *)
Definition one_type_per_name (s : State) : Prop :=
  forall name v t v' t',
    In (name, (v, t)) (chain s) -> In (name, (v', t')) (chain s) -> t = t'.

(** What the [Assign] case asks of the state before it binds [name] to a
    value of type [t]: [name] is unbound, or its newest binding has type
    [t]. *)
Definition assignable (s : State) (name : string) (t : TypeTag) : Prop :=
  match get_value s name with
  | Some (_, t') => t' = t
  | None => True
  end.

(** Some node of [e], [e] itself included, satisfies [p]. *)
Fixpoint some_node (p : Expr -> bool) (e : Expr) : bool :=
  p e ||
  match e with
  | Ren | IntLiteral _ | FloatingPointLiteral _ | StringLiteral _
  | BooleanLiteral _ | Variable_ _ => false
  | Print e1 | Assign _ e1 | Not e1 => some_node p e1
  | Sequence es | Program es => existsb (some_node p) es
  | Add l r | Subtract l r | Multiply l r | Divide l r | And l r | Or l r
  | Lt l r | Lte l r | Gt l r | Gte l r | Eq l r | Ne l r | While l r =>
      some_node p l || some_node p r
  | If c t f => some_node p c || some_node p t || some_node p f
  end.

Definition is_Print (e : Expr) : bool :=
  match e with Print _ => true | _ => false end.

Definition is_While (e : Expr) : bool :=
  match e with While _ _ => true | _ => false end.

Definition is_Assign (e : Expr) : bool :=
  match e with Assign _ _ => true | _ => false end.

(** The computation ended by returning a value. *)
Definition returned {A} (m : M A) : bool :=
  match snd m with Returns _ => true | _ => false end.

(** The twelve nodes with a [left] and a [right] operand. *)
Definition binary_nodes : list (Expr -> Expr -> Expr) :=
  [Add; Subtract; Multiply; Divide; And; Or; Lt; Lte; Gt; Gte; Eq; Ne].

(** The binary nodes whose first test after the operands is the comparison of
    the two types (all but [Divide], which tests the divisor first). *)
Definition type_first_nodes : list (Expr -> Expr -> Expr) :=
  [Add; Subtract; Multiply; And; Or; Lt; Lte; Gt; Gte; Eq; Ne].

(** The computation printed nothing. *)
Definition silent {A} (m : M A) : Prop := fst m = [].

(** The computation ended: it did not run out of fuel. *)
Definition halts {A} (m : M A) : Prop := snd m <> OutOfFuel.

(** ** Reasoning about computations *)

Lemma bind_ret {A B} (a : A) (f : A -> M B) : bind (ret a) f = f a.
Proof. unfold bind, ret. destruct (f a); reflexivity. Qed.

Lemma bind_Returns {A B} (o : list Line) (a : A) (f : A -> M B) :
  bind (o, Returns a) f = (o ++ fst (f a), snd (f a)).
Proof. unfold bind. destruct (f a); reflexivity. Qed.

(** A computation that returned went through both halves of a [bind]. *)
Lemma bind_inv_Returns {A B} (m : M A) (f : A -> M B) o b :
  bind m f = (o, Returns b) ->
  exists o1 a o2, m = (o1, Returns a) /\ f a = (o2, Returns b) /\ o = o1 ++ o2.
Proof.
  destruct m as [o1 [a | e | | ]]; cbn [bind]; try discriminate.
  destruct (f a) as [o2 r] eqn:Hf. intros [= <- ->].
  exists o1, a, o2. auto.
Qed.

(** ** Induction over expressions *)

Section ExprInduction.
Variable P : Expr -> Prop.
Hypothesis step : forall e, Forall P (children e) -> P e.

Fixpoint Expr_children_ind (e : Expr) : P e :=
  let one e1 := Forall_cons e1 (Expr_children_ind e1) (Forall_nil P) in
  let two l r :=
    Forall_cons l (Expr_children_ind l)
      (Forall_cons r (Expr_children_ind r) (Forall_nil P)) in
  let all :=
    fix all (es : list Expr) : Forall P es :=
      match es with
      | [] => Forall_nil P
      | e1 :: rest => Forall_cons e1 (Expr_children_ind e1) (all rest)
      end in
  step e
    match e return Forall P (children e) with
    | Ren | IntLiteral _ | FloatingPointLiteral _ | StringLiteral _
    | BooleanLiteral _ | Variable_ _ => Forall_nil P
    | Print e1 | Assign _ e1 | Not e1 => one e1
    | Sequence es | Program es => all es
    | Add l r | Subtract l r | Multiply l r | Divide l r | And l r | Or l r
    | Lt l r | Lte l r | Gt l r | Gte l r | Eq l r | Ne l r | While l r => two l r
    | If c t f =>
        Forall_cons c (Expr_children_ind c)
          (Forall_cons t (Expr_children_ind t)
             (Forall_cons f (Expr_children_ind f) (Forall_nil P)))
    end.
End ExprInduction.

(** Splits the induction hypothesis on [children e] into one per child. *)
Ltac split_children H :=
  cbn [children] in H;
  repeat match type of H with
         | Forall _ (_ :: _) =>
             let H1 := fresh "IH" in
             let H2 := fresh "IHrest" in
             apply Forall_cons_iff in H; destruct H as [H1 H2]; rename H2 into H
         end.

(** ** More fuel changes nothing once a computation has ended *)

Lemma stable_refl {A} (m : M A) : stable m m.
Proof. intros _. reflexivity. Qed.

Lemma stable_bind {A B} (m m' : M A) (f f' : A -> M B) :
  stable m m' -> (forall a, stable (f a) (f' a)) ->
  stable (bind m f) (bind m' f').
Proof.
  unfold stable. intros Hm Hf Hne.
  destruct m as [o [a | e | | ]]; cbn [snd] in Hm.
  - rewrite Hm by discriminate. rewrite !bind_Returns in *. cbn [snd] in Hne.
    rewrite Hf by exact Hne. reflexivity.
  - rewrite Hm by discriminate. reflexivity.
  - rewrite Hm by discriminate. reflexivity.
  - exfalso. apply Hne. reflexivity.
Qed.

Section StableLoops.
Variables ev ev' : Expr -> State -> M Result.

Lemma for_each_stable (exprs : list Expr) :
  Forall (fun e => forall s, stable (ev e s) (ev' e s)) exprs ->
  forall acc, stable (for_each ev exprs acc) (for_each ev' exprs acc).
Proof.
  induction 1 as [| e rest He _ IH]; intros [[v t] s]; cbn [for_each].
  - apply stable_refl.
  - apply stable_bind; [apply He | exact IH].
Qed.

Lemma while_pass_stable (condition body : Expr) :
  (forall s, stable (ev condition s) (ev' condition s)) ->
  (forall s, stable (ev body s) (ev' body s)) ->
  forall s, stable (while_pass ev condition body s) (while_pass ev' condition body s).
Proof.
  intros Hc Hb s. unfold while_pass.
  apply stable_bind; [apply Hb | intros [[v t] s1]].
  apply stable_bind; [apply Hc | intros [[v' t'] s2]].
  apply stable_refl.
Qed.

Lemma while_loop_stable (condition body : Expr) :
  (forall s, stable (ev condition s) (ev' condition s)) ->
  (forall s, stable (ev body s) (ev' body s)) ->
  forall (n n' : nat) v s, (n <= n')%nat ->
    stable (while_loop ev condition body n v s)
           (while_loop ev' condition body n' v s).
Proof.
  intros Hc Hb. induction n as [| n IH]; intros n' v s Hle.
  - destruct n'; cbn [while_loop]; destruct (truthy v);
      solve [apply stable_refl | intros Hne; exfalso; apply Hne; reflexivity].
  - destruct n' as [| n']; [lia |]. cbn [while_loop].
    destruct (truthy v); [| apply stable_refl].
    apply stable_bind; [apply while_pass_stable; assumption | intros [v' s']].
    apply IH. lia.
Qed.
End StableLoops.

Ltac stable_step :=
  match goal with
  | |- stable ?m ?m => apply stable_refl
  | |- stable (evaluate _ _ _) (evaluate _ _ _) => solve [auto]
  | |- stable (bind _ _) (bind _ _) => apply stable_bind; [solve [auto] | intros]
  | |- stable (match ?x with _ => _ end) _ => destruct x
  | |- stable (let _ := ?x in _) _ => destruct x
  end.

Lemma evaluate_stable (e : Expr) :
  forall (n n' : nat) (s : State), (n <= n')%nat ->
    stable (evaluate n e s) (evaluate n' e s).
Proof.
  induction e as [e IH] using Expr_children_ind. intros n n' s Hle.
  destruct e; split_children IH; cbn [evaluate]; try solve [repeat stable_step].
  - apply for_each_stable.
    eapply Forall_impl; [| exact IH]. cbn beta. auto.
  - apply for_each_stable.
    eapply Forall_impl; [| exact IH]. cbn beta. auto.
  - apply stable_bind; [auto | intros [[v t] s1]].
    destruct (negb (type_eqb t Boolean)); [apply stable_refl |].
    apply stable_bind; [| intros; apply stable_refl].
    apply while_loop_stable; auto.
Qed.

(** A result obtained with some fuel is the result with any larger fuel. *)
Lemma evaluate_fuel_le (n n' : nat) e s o (r : Outcome Result) :
  (n <= n')%nat -> evaluate n e s = (o, r) -> r <> OutOfFuel ->
  evaluate n' e s = (o, r).
Proof.
  intros Hle He Hr. rewrite <- He. apply evaluate_stable; [exact Hle |].
  rewrite He. exact Hr.
Qed.

(** ** Binary nodes: both operands, left to right *)

(** Every binary case of [evaluate] starts by evaluating [left], then [right]
    in the state [left] produced.  With both known to return ([Hl], [Hr]),
    the goal's node is run up to the line after them. *)
Ltac run_operands Hl Hr :=
  cbn [evaluate];
  rewrite Hl, bind_Returns; cbn beta iota;
  rewrite Hr, bind_Returns; cbn beta iota; cbn [fst snd].

(** The same when [Hr] says the right operand did not return. *)
Ltac run_left Hl Hr :=
  cbn [evaluate];
  rewrite Hl, bind_Returns; cbn beta iota;
  rewrite Hr; cbn [bind fst snd].

Lemma type_eqb_eq (a b : TypeTag) : type_eqb a b = true <-> a = b.
Proof. destruct a, b; cbn; split; intros H; try reflexivity; discriminate H. Qed.

Lemma type_eqb_refl (a : TypeTag) : type_eqb a a = true.
Proof. apply type_eqb_eq. reflexivity. Qed.

Lemma type_eqb_neq (a b : TypeTag) : type_eqb a b = false <-> a <> b.
Proof.
  rewrite <- type_eqb_eq. destruct (type_eqb a b); split; intros H.
  - discriminate H.
  - exfalso. apply H. reflexivity.
  - intros H'. discriminate H'.
  - reflexivity.
Qed.

(** ** Divide *)

(** The zero test of [Divide] comes right after the operands. *)
Lemma evaluate_Divide_zero fuel l r state o1 lv lt s1 o2 rv rt s2 :
  evaluate fuel l state = (o1, Returns (lv, lt, s1)) ->
  evaluate fuel r s1 = (o2, Returns (rv, rt, s2)) ->
  py_eq_zero rv = true ->
  evaluate fuel (Divide l r) state = (o1 ++ o2, Raises InterpMathError).
Proof.
  intros Hl Hr Hz. run_operands Hl Hr. rewrite Hz. cbn.
  rewrite app_nil_r. reflexivity.
Qed.

(** C2: [Divide] evaluates both operands and then tests the divisor's payload
    against zero before looking at any type: whenever both operands return
    and the right payload equals zero, the math error is raised (after the
    output of both operands), whatever the two types are; in particular
    [Divide(IntLiteral(a), IntLiteral(0))] raises it for every integer [a]. *)
Theorem divide_by_zero_before_type_check :
  (forall fuel l r state o1 lv lt s1 o2 rv rt s2,
      evaluate fuel l state = (o1, Returns (lv, lt, s1)) ->
      evaluate fuel r s1 = (o2, Returns (rv, rt, s2)) ->
      py_eq_zero rv = true ->
      evaluate fuel (Divide l r) state = (o1 ++ o2, Raises InterpMathError)) /\
  (forall fuel a state,
      evaluate fuel (Divide (IntLiteral a) (IntLiteral 0)) state
      = ([], Raises InterpMathError)).
Proof.
  split.
  - exact evaluate_Divide_zero.
  - intros fuel a state.
    apply (evaluate_Divide_zero fuel (IntLiteral a) (IntLiteral 0) state
             [] (VInt a) Integer state [] (VInt 0) Integer state);
      reflexivity.
Qed.

(** A string divided by [False]: the types differ and neither is numeric,
    and the math error is what is raised. *)
Lemma divide_by_zero_before_type_check_witness :
  evaluate 0 (Divide (StringLiteral "a") (BooleanLiteral false)) EmptyState
  = ([], Raises InterpMathError).
Proof.
  apply (proj1 divide_by_zero_before_type_check 0%nat
           (StringLiteral "a") (BooleanLiteral false) EmptyState
           [] (VStr "a") String EmptyState [] (VBool false) Boolean EmptyState);
    reflexivity.
Defined.

(** C10: [False == 0] holds in Python, so a divisor [BooleanLiteral(false)]
    trips the zero test: the math error, not a type error, for every left
    operand that returns. *)
Theorem divide_by_false_is_math_error fuel e state o lv lt s1 :
  evaluate fuel e state = (o, Returns (lv, lt, s1)) ->
  evaluate fuel (Divide e (BooleanLiteral false)) state = (o, Raises InterpMathError).
Proof.
  intros He.
  rewrite (evaluate_Divide_zero fuel e (BooleanLiteral false) state
             o lv lt s1 [] (VBool false) Boolean s1 He);
    [rewrite app_nil_r | |]; reflexivity.
Qed.

Lemma divide_by_false_is_math_error_witness :
  evaluate 0 (Divide (IntLiteral 5) (BooleanLiteral false)) EmptyState
  = ([], Raises InterpMathError).
Proof.
  apply (divide_by_false_is_math_error 0%nat (IntLiteral 5) EmptyState
           [] (VInt 5) Integer EmptyState).
  reflexivity.
Defined.

Lemma Z_div_floor (a b : Z) : b <> 0 -> floor_of_quotient a b (a / b).
Proof.
  intros Hb. pose proof (Z.div_mod a b Hb) as Hdm. split; intros Hs.
  - pose proof (Z.mod_pos_bound a b Hs). nia.
  - pose proof (Z.mod_neg_bound a b Hs). nia.
Qed.

(** C8: integer [Divide] with a non-zero divisor returns the floor of the
    quotient, rounded toward minus infinity (-7 by 2 gives -4), typed
    [Integer]; [FloatingPoint] operands are divided as floats (IEEE binary64
    division of the payloads), with no rounding to an integer. *)
Theorem divide_integer_floor_float_true :
  (forall fuel a b state, b <> 0 ->
      exists q, evaluate fuel (Divide (IntLiteral a) (IntLiteral b)) state
                = ([], Returns (VInt q, Integer, state))
                /\ floor_of_quotient a b q) /\
  (forall fuel state,
      evaluate fuel (Divide (IntLiteral (-7)) (IntLiteral 2)) state
      = ([], Returns (VInt (-4), Integer, state))) /\
  (forall fuel x y state, PrimFloat.eqb y 0%float = false ->
      evaluate fuel (Divide (FloatingPointLiteral x) (FloatingPointLiteral y)) state
      = ([], Returns (VFloat (PrimFloat.div x y), FloatingPoint, state))) /\
  (forall fuel state,
      evaluate fuel (Divide (FloatingPointLiteral 7) (FloatingPointLiteral 2)) state
      = ([], Returns (VFloat 3.5, FloatingPoint, state))).
Proof.
  split; [| split; [| split]].
  - intros fuel a b state Hb. exists (a / b). split; [| apply Z_div_floor, Hb].
    apply Z.eqb_neq in Hb. cbn. rewrite Hb. reflexivity.
  - intros fuel state. reflexivity.
  - intros fuel x y state Hy. cbn. rewrite Hy. reflexivity.
  - intros fuel state. reflexivity.
Qed.

Lemma divide_integer_floor_float_true_witness :
  (exists q, evaluate 0 (Divide (IntLiteral 7) (IntLiteral (-2))) EmptyState
             = ([], Returns (VInt q, Integer, EmptyState))
             /\ floor_of_quotient 7 (-2) q) /\
  evaluate 0 (Divide (FloatingPointLiteral 1) (FloatingPointLiteral 4)) EmptyState
  = ([], Returns (VFloat 0.25, FloatingPoint, EmptyState)).
Proof.
  split.
  - apply (proj1 divide_integer_floor_float_true 0%nat 7 (-2) EmptyState). lia.
  - apply (proj1 (proj2 (proj2 divide_integer_floor_float_true))
             0%nat 1%float 4%float EmptyState).
    reflexivity.
Defined.

(** ** Comparisons *)

(** The last line of every comparison case: the result is tagged [Boolean]. *)
Lemma tagged_Boolean (m : M Value) (s : State) o v t s' :
  (result <- m ;; ret (result, Boolean, s)) = (o, Returns (v, t, s')) ->
  t = Boolean.
Proof.
  intros H. apply bind_inv_Returns in H as (o1 & a & o2 & _ & H & _).
  injection H as _ _ <- _. reflexivity.
Qed.

Lemma comparison_type fuel op l r state o v t s' :
  In op comparison_nodes ->
  evaluate fuel (op l r) state = (o, Returns (v, t, s')) ->
  t = Boolean.
Proof.
  intros Hop H.
  assert (Hcase : forall (lt rt : TypeTag) (m : M Value) (b : bool) (s2 : State) o',
             (if negb (type_eqb lt rt) then raise InterpTypeError
              else result <- m ;; ret (result, Boolean, s2)) = (o', Returns (v, t, s'))
             \/ (if negb (type_eqb lt rt) then raise InterpTypeError
                 else if type_eqb lt Unit then ret (VBool b, Boolean, s2)
                      else result <- m ;; ret (result, Boolean, s2))
                = (o', Returns (v, t, s')) ->
             t = Boolean).
  { intros lt rt m b s2 o' [Hk | Hk]; destruct (negb (type_eqb lt rt));
      try discriminate Hk.
    - eapply tagged_Boolean, Hk.
    - destruct (type_eqb lt Unit).
      + injection Hk as _ _ <- _. reflexivity.
      + eapply tagged_Boolean, Hk. }
  cbn [comparison_nodes In] in Hop.
  repeat (destruct Hop as [<- | Hop]); [.. | contradiction];
    cbn [evaluate] in H;
    apply bind_inv_Returns in H as (o1 & [[lv lt] s1] & o2 & _ & H & _);
    apply bind_inv_Returns in H as (o3 & [[rv rt] s2] & o4 & _ & H & _);
    first [eapply (Hcase _ _ _ true); left; exact H | eapply Hcase; right; exact H].
Qed.

(** C3: when both operands of a comparison return with type [Unit], the
    result is fixed, whatever the payloads and the state: [Lt] false, [Lte]
    true, [Gt] false, [Gte] true, [Eq] true, [Ne] false; and whenever any of
    the six comparison nodes returns, the type it returns is [Boolean]. *)
Theorem unit_comparisons_fixed :
  (forall fuel l r state o1 lv s1 o2 rv s2,
      evaluate fuel l state = (o1, Returns (lv, Unit, s1)) ->
      evaluate fuel r s1 = (o2, Returns (rv, Unit, s2)) ->
      evaluate fuel (Lt l r) state = (o1 ++ o2, Returns (VBool false, Boolean, s2)) /\
      evaluate fuel (Lte l r) state = (o1 ++ o2, Returns (VBool true, Boolean, s2)) /\
      evaluate fuel (Gt l r) state = (o1 ++ o2, Returns (VBool false, Boolean, s2)) /\
      evaluate fuel (Gte l r) state = (o1 ++ o2, Returns (VBool true, Boolean, s2)) /\
      evaluate fuel (Eq l r) state = (o1 ++ o2, Returns (VBool true, Boolean, s2)) /\
      evaluate fuel (Ne l r) state = (o1 ++ o2, Returns (VBool false, Boolean, s2))) /\
  (forall fuel op l r state o v t s',
      In op comparison_nodes ->
      evaluate fuel (op l r) state = (o, Returns (v, t, s')) ->
      t = Boolean).
Proof.
  split.
  - intros fuel l r state o1 lv s1 o2 rv s2 Hl Hr.
    repeat apply conj; run_operands Hl Hr; cbn; rewrite app_nil_r; reflexivity.
  - exact comparison_type.
Qed.

(** A variable bound to an integer payload under the tag [Unit] compared with
    the unit literal: the payloads differ, the answers are the fixed ones. *)
Lemma unit_comparisons_fixed_witness :
  let state := StateNode "u" (VInt 5, Unit) EmptyState in
  (evaluate 0 (Lt (Variable_ "u") Ren) state = ([], Returns (VBool false, Boolean, state)) /\
   evaluate 0 (Lte (Variable_ "u") Ren) state = ([], Returns (VBool true, Boolean, state)) /\
   evaluate 0 (Gt (Variable_ "u") Ren) state = ([], Returns (VBool false, Boolean, state)) /\
   evaluate 0 (Gte (Variable_ "u") Ren) state = ([], Returns (VBool true, Boolean, state)) /\
   evaluate 0 (Eq (Variable_ "u") Ren) state = ([], Returns (VBool true, Boolean, state)) /\
   evaluate 0 (Ne (Variable_ "u") Ren) state = ([], Returns (VBool false, Boolean, state))).
Proof.
  intros state.
  apply (proj1 unit_comparisons_fixed 0%nat (Variable_ "u") Ren state
           [] (VInt 5) state [] VNone state); reflexivity.
Defined.

(** ** And, Or *)

(** Python's [and] and [or] on two [bool] payloads are the boolean
    connectives. *)
Lemma py_and_bool (a b : bool) : py_and (VBool a) (VBool b) = VBool (a && b).
Proof. destruct a; reflexivity. Qed.

Lemma py_or_bool (a b : bool) : py_or (VBool a) (VBool b) = VBool (a || b).
Proof. destruct a; reflexivity. Qed.

(** C4: [And] and [Or] evaluate both operands, the right one in the state the
    left one produced, whatever the left payload is: an exception of the
    right operand is the node's exception; when both return, the node raises
    the type error unless both types are [Boolean], and otherwise returns
    Python's [and] / [or] of the payloads, typed [Boolean].  So
    [And(BooleanLiteral(false), Divide(IntLiteral(1), IntLiteral(0)))] raises
    the math error. *)
Theorem and_or_no_short_circuit :
  (forall fuel l r state o1 lv lt s1 o2 err,
      evaluate fuel l state = (o1, Returns (lv, lt, s1)) ->
      evaluate fuel r s1 = (o2, Raises err) ->
      evaluate fuel (And l r) state = (o1 ++ o2, Raises err) /\
      evaluate fuel (Or l r) state = (o1 ++ o2, Raises err)) /\
  (forall fuel l r state o1 lv lt s1 o2 rv rt s2,
      evaluate fuel l state = (o1, Returns (lv, lt, s1)) ->
      evaluate fuel r s1 = (o2, Returns (rv, rt, s2)) ->
      (lt = Boolean /\ rt = Boolean ->
       evaluate fuel (And l r) state = (o1 ++ o2, Returns (py_and lv rv, Boolean, s2)) /\
       evaluate fuel (Or l r) state = (o1 ++ o2, Returns (py_or lv rv, Boolean, s2))) /\
      (~ (lt = Boolean /\ rt = Boolean) ->
       evaluate fuel (And l r) state = (o1 ++ o2, Raises InterpTypeError) /\
       evaluate fuel (Or l r) state = (o1 ++ o2, Raises InterpTypeError))) /\
  (forall fuel state,
      evaluate fuel (And (BooleanLiteral false) (Divide (IntLiteral 1) (IntLiteral 0))) state
      = ([], Raises InterpMathError)) /\
  (forall a b, py_and (VBool a) (VBool b) = VBool (a && b) /\
               py_or (VBool a) (VBool b) = VBool (a || b)).
Proof.
  split; [| split; [| split]].
  - intros fuel l r state o1 lv lt s1 o2 err Hl Hr.
    split; run_left Hl Hr; reflexivity.
  - intros fuel l r state o1 lv lt s1 o2 rv rt s2 Hl Hr. split.
    + intros [-> ->]. split; run_operands Hl Hr; cbn; rewrite app_nil_r; reflexivity.
    + intros Hne.
      assert (Hk : forall v : Value,
                 (if negb (type_eqb lt rt) then raise InterpTypeError
                  else match lt with
                       | Boolean => ret (v, lt, s2)
                       | _ => raise InterpTypeError
                       end) = ([], Raises InterpTypeError)).
      { intros v. destruct lt, rt; cbn; try reflexivity.
        exfalso. apply Hne. split; reflexivity. }
      split; run_operands Hl Hr; rewrite Hk; cbn; rewrite app_nil_r; reflexivity.
  - intros fuel state. reflexivity.
  - intros a b. split; [apply py_and_bool | apply py_or_bool].
Qed.

(** [Or] with a true left operand and a right operand that reads an unbound
    variable; and with an integer on the right. *)
Lemma and_or_no_short_circuit_witness :
  (evaluate 0 (And (BooleanLiteral true) (Variable_ "x")) EmptyState
   = ([], Raises InterpSyntaxError) /\
   evaluate 0 (Or (BooleanLiteral true) (Variable_ "x")) EmptyState
   = ([], Raises InterpSyntaxError)) /\
  (evaluate 0 (And (BooleanLiteral true) (IntLiteral 1)) EmptyState
   = ([], Raises InterpTypeError) /\
   evaluate 0 (Or (BooleanLiteral true) (IntLiteral 1)) EmptyState
   = ([], Raises InterpTypeError)) /\
  (evaluate 0 (And (BooleanLiteral true) (BooleanLiteral false)) EmptyState
   = ([], Returns (VBool false, Boolean, EmptyState)) /\
   evaluate 0 (Or (BooleanLiteral true) (BooleanLiteral false)) EmptyState
   = ([], Returns (VBool true, Boolean, EmptyState))).
Proof.
  split; [| split].
  - apply (proj1 and_or_no_short_circuit 0%nat (BooleanLiteral true) (Variable_ "x")
             EmptyState [] (VBool true) Boolean EmptyState [] InterpSyntaxError);
      reflexivity.
  - apply (proj1 (proj2 and_or_no_short_circuit) 0%nat
             (BooleanLiteral true) (IntLiteral 1) EmptyState
             [] (VBool true) Boolean EmptyState [] (VInt 1) Integer EmptyState);
      try reflexivity.
    intros [_ H]. discriminate H.
  - apply (proj1 (proj2 and_or_no_short_circuit) 0%nat
             (BooleanLiteral true) (BooleanLiteral false) EmptyState
             [] (VBool true) Boolean EmptyState [] (VBool false) Boolean EmptyState);
      try reflexivity.
    split; reflexivity.
Defined.

(** ** The chain of bindings *)

Lemma extends_refl s : extends s s.
Proof. exists []. reflexivity. Qed.

Lemma extends_trans s1 s2 s3 : extends s1 s2 -> extends s2 s3 -> extends s1 s3.
Proof.
  intros [n1 H1] [n2 H2]. exists (n2 ++ n1).
  rewrite H2, H1, app_assoc. reflexivity.
Qed.

Lemma extends_set_value s name v t : extends s (set_value s name v t).
Proof. exists [(name, (v, t))]. reflexivity. Qed.

Lemma get_value_None (s : State) (name : string) :
  get_value s name = None <-> ~ In name (map fst (chain s)).
Proof.
  induction s as [| n value s IH]; cbn [get_value chain map In fst].
  - split; [intros _ [] | reflexivity].
  - destruct (String.eqb_spec name n) as [-> | Hne].
    + split; [discriminate | intros H; exfalso; apply H; left; reflexivity].
    + rewrite IH. split.
      * intros H [Heq | Hin]; [apply Hne; symmetry; exact Heq | exact (H Hin)].
      * intros H Hin. apply H. right. exact Hin.
Qed.

(** [get_value] finds the newest binding of the name. *)
Lemma get_value_Some (s : State) (name : string) (b : Value * TypeTag) :
  get_value s name = Some b <->
  exists newer older,
    chain s = newer ++ (name, b) :: older /\ ~ In name (map fst newer).
Proof.
  induction s as [| n value s IH]; cbn [get_value chain].
  - split; [discriminate |].
    intros (newer & older & H & _). destruct newer; discriminate H.
  - destruct (String.eqb_spec name n) as [-> | Hne].
    + split.
      * intros [= ->]. exists [], (chain s). split; [reflexivity | intros []].
      * intros ([| x newer] & older & H & Hnew).
        -- injection H as -> _. reflexivity.
        -- injection H as <- _. exfalso. apply Hnew. left. reflexivity.
    + rewrite IH. split.
      * intros (newer & older & H & Hnew).
        exists ((n, value) :: newer), older. split.
        -- cbn. rewrite H. reflexivity.
        -- intros [Heq | Hin]; [apply Hne; symmetry; exact Heq | exact (Hnew Hin)].
      * intros ([| x newer] & older & H & Hnew).
        -- injection H as Heq _. exfalso. apply Hne. symmetry. exact Heq.
        -- injection H as _ H. exists newer, older. split; [exact H |].
           intros Hin. apply Hnew. right. exact Hin.
Qed.

(** ** Variable *)

(** C6: [Variable(name)] looks the name up from the newest binding toward the
    empty state, the newest binding of the name winning; with no binding of
    the name in the chain the syntax error is raised, and otherwise the bound
    value and type are returned and the state is the one given. *)
Theorem variable_lookup :
  (forall fuel name state,
      ~ In name (map fst (chain state)) ->
      evaluate fuel (Variable_ name) state = ([], Raises InterpSyntaxError)) /\
  (forall fuel name state newer v t older,
      chain state = newer ++ (name, (v, t)) :: older ->
      ~ In name (map fst newer) ->
      evaluate fuel (Variable_ name) state = ([], Returns (v, t, state))) /\
  (forall name, get_value EmptyState name = None) /\
  (forall name value next_state,
      get_value (StateNode name value next_state) name = Some value) /\
  (forall name other value next_state,
      other <> name ->
      get_value (StateNode other value next_state) name = get_value next_state name).
Proof.
  split; [| split; [| split; [| split]]].
  - intros fuel name state Habsent. apply get_value_None in Habsent.
    cbn [evaluate]. rewrite Habsent. reflexivity.
  - intros fuel name state newer v t older Hchain Hnew.
    assert (Hget : get_value state name = Some (v, t)).
    { apply get_value_Some. exists newer, older. split; assumption. }
    cbn [evaluate]. rewrite Hget. reflexivity.
  - reflexivity.
  - intros name value next_state. cbn [get_value].
    rewrite String.eqb_refl. reflexivity.
  - intros name other value next_state Hne. cbn [get_value].
    destruct (String.eqb_spec name other) as [-> | _];
      [exfalso; apply Hne; reflexivity | reflexivity].
Qed.

(** [x] bound twice and [y] once: reading [x] gives the newer binding, reading
    [z] fails. *)
Lemma variable_lookup_witness :
  let state := StateNode "y" (VBool true, Boolean)
                 (StateNode "x" (VInt 2, Integer)
                    (StateNode "x" (VInt 1, Integer) EmptyState)) in
  evaluate 0 (Variable_ "z") state = ([], Raises InterpSyntaxError) /\
  evaluate 0 (Variable_ "x") state = ([], Returns (VInt 2, Integer, state)).
Proof.
  intros state. split.
  - apply (proj1 variable_lookup 0%nat "z"%string state).
    cbn. intros [H | [H | [H | []]]]; discriminate H.
  - apply (proj1 (proj2 variable_lookup) 0%nat "x"%string state
             [("y"%string, (VBool true, Boolean))] (VInt 2) Integer
             [("x"%string, (VInt 1, Integer))]).
    + reflexivity.
    + cbn. intros [H | []]. discriminate H.
Defined.

(** ** Assign *)

(** C5: [Assign(var, valueExpr)] evaluates [valueExpr] first, giving
    [(v, t, env1)], and looks [var] up in [env1]: a binding of another type
    raises the type error; a binding of type [t], or none, returns [(v, t)]
    and [env1] with the binding of [var] to [(v, t)] put in front, where it
    shadows every older binding of [var]. *)
Theorem assign_checks_prior_type fuel var value state o v t env1 :
  evaluate fuel value state = (o, Returns (v, t, env1)) ->
  (forall v' t', get_value env1 var = Some (v', t') -> t' <> t ->
                 evaluate fuel (Assign var value) state = (o, Raises InterpTypeError)) /\
  (get_value env1 var = None \/ (exists v', get_value env1 var = Some (v', t)) ->
   evaluate fuel (Assign var value) state
   = (o, Returns (v, t, set_value env1 var v t))) /\
  chain (set_value env1 var v t) = (var, (v, t)) :: chain env1 /\
  get_value (set_value env1 var v t) var = Some (v, t).
Proof.
  intros Hv. split; [| split; [| split]].
  - intros v' t' Hget Hne.
    cbn [evaluate]. rewrite Hv, bind_Returns. cbn beta iota. rewrite Hget.
    assert (Hneq : type_eqb t t' = false).
    { apply type_eqb_neq. intros ->. apply Hne. reflexivity. }
    rewrite Hneq. cbn. rewrite app_nil_r. reflexivity.
  - intros [Hget | [v' Hget]];
      cbn [evaluate]; rewrite Hv, bind_Returns; cbn beta iota; rewrite Hget.
    + cbn. rewrite app_nil_r. reflexivity.
    + rewrite type_eqb_refl. cbn. rewrite app_nil_r. reflexivity.
  - reflexivity.
  - unfold set_value. cbn [get_value]. rewrite String.eqb_refl. reflexivity.
Qed.

(** [x] holds an integer: assigning a boolean to it is refused, assigning an
    integer adds the new binding in front. *)
Lemma assign_checks_prior_type_witness :
  let state := StateNode "x" (VInt 1, Integer) EmptyState in
  evaluate 0 (Assign "x" (BooleanLiteral true)) state = ([], Raises InterpTypeError) /\
  evaluate 0 (Assign "x" (IntLiteral 2)) state
  = ([], Returns (VInt 2, Integer, StateNode "x" (VInt 2, Integer) state)) /\
  evaluate 0 (Assign "y" (IntLiteral 2)) state
  = ([], Returns (VInt 2, Integer, StateNode "y" (VInt 2, Integer) state)).
Proof.
  intros state. split; [| split].
  - apply (proj1 (assign_checks_prior_type 0%nat "x"%string (BooleanLiteral true) state
                    [] (VBool true) Boolean state eq_refl) (VInt 1) Integer).
    + reflexivity.
    + discriminate.
  - apply (proj1 (proj2 (assign_checks_prior_type 0%nat "x"%string (IntLiteral 2) state
                           [] (VInt 2) Integer state eq_refl))).
    right. exists (VInt 1). reflexivity.
  - apply (proj1 (proj2 (assign_checks_prior_type 0%nat "y"%string (IntLiteral 2) state
                           [] (VInt 2) Integer state eq_refl))).
    left. reflexivity.
Defined.

(** ** What every returning evaluation guarantees *)

Lemma ensures_Returns {A} (P : A -> Prop) Q (m : M A) o a :
  ensures P Q m -> m = (o, Returns a) -> P a.
Proof. intros H ->. exact H. Qed.

Lemma ensures_ret {A} (P : A -> Prop) Q (a : A) : P a -> ensures P Q (ret a).
Proof. intros H. exact H. Qed.

Lemma ensures_raise {A} (P : A -> Prop) Q e : ensures P Q (raise e).
Proof. exact I. Qed.

Lemma ensures_bind {A B} (P : A -> Prop) (P' : B -> Prop) Q (m : M A) (f : A -> M B) :
  ensures P Q m -> (forall a, P a -> ensures P' Q (f a)) ->
  ensures P' Q (bind m f).
Proof.
  unfold ensures. destruct m as [o [a | e | | ]]; cbn [snd bind]; intros Hm Hf.
  - specialize (Hf a Hm). destruct (f a) as [o' r]. exact Hf.
  - exact I.
  - exact Hm.
  - exact I.
Qed.

Lemma ensures_impl {A} (P P' : A -> Prop) Q (m : M A) :
  ensures P Q m -> (forall a, P a -> P' a) -> ensures P' Q m.
Proof.
  unfold ensures. destruct (snd m); intros H Himp; auto.
Qed.

Section EnsuresLoops.
Variable ev : Expr -> State -> M Result.
Variable Q : Prop.

(** An invariant [Inv] of the state, kept by every expression of the list,
    holds after the list. *)
Lemma for_each_ensures (Inv : State -> Prop) (P : Result -> Prop) exprs :
  (forall r, P r -> Inv (snd r)) ->
  Forall (fun e => forall s, Inv s -> ensures P Q (ev e s)) exprs ->
  forall acc, P acc -> ensures P Q (for_each ev exprs acc).
Proof.
  intros HPI. induction 1 as [| e rest He _ IH]; intros [[v t] s] Hacc;
    cbn [for_each].
  - apply ensures_ret. exact Hacc.
  - eapply ensures_bind; [apply He, (HPI _ Hacc) | exact IH].
Qed.

(** An invariant kept by the body and by the condition holds when the loop
    ends. *)
Lemma while_loop_ensures (Inv : State -> Prop) (P : Result -> Prop) condition body :
  (forall r, P r -> Inv (snd r)) ->
  (forall s, Inv s -> ensures P Q (ev condition s)) ->
  (forall s, Inv s -> ensures P Q (ev body s)) ->
  forall n v s, Inv s -> ensures Inv Q (while_loop ev condition body n v s).
Proof.
  intros HPI Hc Hb. induction n as [| n IH]; intros v s Hs; cbn [while_loop];
    (destruct (truthy v); [| apply ensures_ret; exact Hs]).
  - exact I.
  - eapply ensures_bind with (P := fun vs => Inv (snd vs)); [| intros [v' s']; apply IH].
    unfold while_pass.
    eapply ensures_bind; [apply Hb, Hs | intros [[bv bt] s1] H1].
    eapply ensures_bind; [apply Hc, (HPI _ H1) | intros [[cv ct] s2] H2].
    apply ensures_ret. exact (HPI _ H2).
Qed.
End EnsuresLoops.

(** One step through a case of [evaluate] whose sub-evaluations are covered
    by hypotheses. *)
Ltac ensures_step :=
  match goal with
  | |- ensures _ _ (ret _) => apply ensures_ret
  | |- ensures _ _ (raise _) => apply ensures_raise
  | |- ensures _ _ (bind (ret _) _) => rewrite bind_ret
  | |- ensures _ _ (bind (evaluate _ _ _) _) =>
      eapply ensures_bind; [solve [eauto] | intros [[? ?] ?] ?]
  | |- ensures _ _ (bind (print _) _) =>
      eapply ensures_bind with (P := fun _ => True); [exact I | intros _ _]
  | |- ensures _ _ (bind (lift ?x) _) =>
      destruct x; cbn [lift]; [rewrite bind_ret | try exact I]
  | |- ensures _ _ (bind (match ?x with _ => _ end) _) => destruct x eqn:?
  | |- ensures _ _ (if ?c then _ else _) => destruct c eqn:?
  | |- ensures _ _ (match ?x with _ => _ end) => destruct x eqn:?
  end.

(** Evaluation only ever puts bindings in front of the state: every binding
    present before is still there, in place, after. *)
Lemma evaluate_extends (e : Expr) :
  forall (n : nat) (s : State),
    ensures (fun r => extends s (snd r)) True (evaluate n e s).
Proof.
  induction e as [e IH] using Expr_children_ind. intros n s.
  assert (Hfrom : forall e1 s1,
             (forall n s, ensures (fun r => extends s (snd r)) True (evaluate n e1 s)) ->
             extends s s1 ->
             ensures (fun r => extends s (snd r)) True (evaluate n e1 s1)).
  { intros e1 s1 H1 Hs1. eapply ensures_impl; [apply H1 |].
    intros r Hr. exact (extends_trans _ _ _ Hs1 Hr). }
  destruct e; split_children IH; cbn [evaluate].
  all: try solve [repeat (ensures_step; cbn [snd] in * );
                  eauto using extends_refl, extends_trans, extends_set_value].
  - apply for_each_ensures with (Inv := extends s);
      [auto | | apply extends_refl].
    eapply Forall_impl; [| exact IH]. cbn beta. intros e1 H1 s1. apply Hfrom, H1.
  - apply for_each_ensures with (Inv := extends s);
      [auto | | apply extends_refl].
    eapply Forall_impl; [| exact IH]. cbn beta. intros e1 H1 s1. apply Hfrom, H1.
  - eapply ensures_bind; [apply IH0 | intros [[cv ct] s1] H1; cbn [snd] in H1].
    destruct (negb (type_eqb ct Boolean)); [apply ensures_raise |].
    eapply ensures_bind with (P := extends s);
      [| intros s2 H2; apply ensures_ret; exact H2].
    apply while_loop_ensures with (P := fun r => extends s (snd r));
      [auto | intros s2; apply Hfrom, IH0 | intros s2; apply Hfrom, IH1 | exact H1].
Qed.

(** A returned state extends the state given. *)
Lemma evaluate_Returns_extends fuel e s o v t s' :
  evaluate fuel e s = (o, Returns (v, t, s')) -> extends s s'.
Proof. intros H. exact (ensures_Returns _ _ _ _ _ (evaluate_extends e fuel s) H). Qed.

(** ** Sequence, Program *)

Lemma bind_ret_r {A} (m : M A) : bind m ret = m.
Proof.
  destruct m as [o [a | e | | ]]; cbn; try reflexivity.
  rewrite app_nil_r. reflexivity.
Qed.

Lemma bind_assoc {A B C} (m : M A) (f : A -> M B) (g : B -> M C) :
  bind (bind m f) g = bind m (fun a => bind (f a) g).
Proof.
  destruct m as [o [a | e | | ]]; cbn [bind]; try reflexivity.
  destruct (f a) as [o' [b | e | | ]]; cbn [bind]; try reflexivity.
  destruct (g b) as [o'' r]. rewrite app_assoc. reflexivity.
Qed.

Lemma bind_ext {A B} (m : M A) (f g : A -> M B) :
  (forall a, f a = g a) -> bind m f = bind m g.
Proof.
  intros H. destruct m as [o [a | e | | ]]; cbn [bind]; try reflexivity.
  rewrite H. reflexivity.
Qed.

(** Running a list is running its front part, then the rest from where the
    front part ended. *)
Lemma for_each_app ev (es1 es2 : list Expr) (acc : Result) :
  for_each ev (es1 ++ es2) acc = bind (for_each ev es1 acc) (for_each ev es2).
Proof.
  revert acc. induction es1 as [| e es1 IH]; intros [[v t] s]; cbn [app for_each].
  - rewrite bind_ret. reflexivity.
  - rewrite bind_assoc. apply bind_ext. exact IH.
Qed.

Lemma for_each_last ev (es : list Expr) (e : Expr) (acc : Result) :
  for_each ev (es ++ [e]) acc
  = bind (for_each ev es acc) (fun r => ev e (snd r)).
Proof.
  rewrite for_each_app. apply bind_ext. intros [[v t] s]. cbn [for_each snd].
  apply bind_ret_r.
Qed.

(** C7: [Sequence] and [Program] are the same computation: the
    sub-expressions run left to right, each in the state the previous one
    produced; the empty list returns [(None, Unit)] and the state given; the
    result of a non-empty list is the value, type and state of its last
    sub-expression; an exception stops the list; and the state reached after
    any front part of the list is kept, extended, by the rest (nothing is
    restored when a sequence ends). *)
Theorem sequence_threads_state :
  (forall fuel state,
      evaluate fuel (Sequence []) state = ([], Returns (VNone, Unit, state))) /\
  (forall fuel exprs state,
      evaluate fuel (Program exprs) state = evaluate fuel (Sequence exprs) state) /\
  (forall fuel exprs expr state o1 v1 t1 s1 o2 r,
      evaluate fuel (Sequence exprs) state = (o1, Returns (v1, t1, s1)) ->
      evaluate fuel expr s1 = (o2, r) ->
      evaluate fuel (Sequence (exprs ++ [expr])) state = (o1 ++ o2, r)) /\
  (forall fuel before after state o1 err,
      evaluate fuel (Sequence before) state = (o1, Raises err) ->
      evaluate fuel (Sequence (before ++ after)) state = (o1, Raises err)) /\
  (forall fuel before after state o1 v1 t1 s1 o v t s',
      evaluate fuel (Sequence before) state = (o1, Returns (v1, t1, s1)) ->
      evaluate fuel (Sequence (before ++ after)) state = (o, Returns (v, t, s')) ->
      extends state s1 /\ extends s1 s').
Proof.
  split; [| split; [| split; [| split]]].
  - reflexivity.
  - reflexivity.
  - intros fuel exprs expr state o1 v1 t1 s1 o2 r Hfront Hlast.
    cbn [evaluate] in *. rewrite for_each_last, Hfront, bind_Returns.
    cbn [snd]. rewrite Hlast. reflexivity.
  - intros fuel before after state o1 err Hfront.
    cbn [evaluate] in *. rewrite for_each_app, Hfront. reflexivity.
  - intros fuel before after state o1 v1 t1 s1 o v t s' Hfront Hall.
    split; [exact (evaluate_Returns_extends _ _ _ _ _ _ _ Hfront) |].
    cbn [evaluate] in *. rewrite for_each_app, Hfront, bind_Returns in Hall.
    assert (Hrest : ensures (fun r => extends s1 (snd r)) True
                      (for_each (evaluate fuel) after (v1, t1, s1))).
    { apply for_each_ensures with (Inv := extends s1);
        [auto | | apply extends_refl].
      apply Forall_forall. intros e _ s2 Hs2.
      eapply ensures_impl; [apply evaluate_extends |].
      intros r Hr. exact (extends_trans _ _ _ Hs2 Hr). }
    destruct (for_each (evaluate fuel) after (v1, t1, s1)) as [o2 r2].
    cbn [fst snd] in Hall. injection Hall as _ ->. exact Hrest.
Qed.

(** [x] is bound inside an inner sequence and read after it. *)
Lemma sequence_threads_state_witness :
  let inner := Sequence [Assign "x" (IntLiteral 5)] in
  let bound := StateNode "x" (VInt 5, Integer) EmptyState in
  evaluate 0 (Sequence ([inner] ++ [Variable_ "x"])) EmptyState
  = ([], Returns (VInt 5, Integer, bound)) /\
  evaluate 0 (Sequence ([Variable_ "x"] ++ [inner])) EmptyState
  = ([], Raises InterpSyntaxError) /\
  (extends EmptyState bound /\ extends bound bound).
Proof.
  intros inner bound. split; [| split].
  - apply (proj1 (proj2 (proj2 sequence_threads_state)) 0%nat
             [inner] (Variable_ "x") EmptyState [] (VInt 5) Integer bound []);
      reflexivity.
  - apply (proj1 (proj2 (proj2 (proj2 sequence_threads_state))) 0%nat
             [Variable_ "x"] [inner] EmptyState []).
    reflexivity.
  - apply (proj2 (proj2 (proj2 (proj2 sequence_threads_state))) 0%nat
             [inner] [Variable_ "x"] EmptyState [] (VInt 5) Integer bound
             [] (VInt 5) Integer bound);
      reflexivity.
Defined.

(** ** While *)

(** One pass whose body and condition return. *)
Lemma while_loop_pass n n' c b v s ob bv bt s1 oc cv ct s2 :
  truthy v = true ->
  evaluate n b s = (ob, Returns (bv, bt, s1)) ->
  evaluate n c s1 = (oc, Returns (cv, ct, s2)) ->
  while_loop (evaluate n) c b (S n') v s
  = (ob ++ oc ++ fst (while_loop (evaluate n) c b n' cv s2),
     snd (while_loop (evaluate n) c b n' cv s2)).
Proof.
  intros Hv Hb Hc. cbn [while_loop]. rewrite Hv. unfold while_pass.
  rewrite Hb, bind_Returns. cbn beta iota. rewrite Hc, bind_Returns.
  cbn [fst snd ret]. rewrite app_nil_r, bind_Returns, <- app_assoc.
  reflexivity.
Qed.

(** A pass whose body raises. *)
Lemma while_loop_body_Raises n n' c b v s ob err :
  truthy v = true ->
  evaluate n b s = (ob, Raises err) ->
  while_loop (evaluate n) c b (S n') v s = (ob, Raises err).
Proof.
  intros Hv Hb. cbn [while_loop]. rewrite Hv. unfold while_pass.
  rewrite Hb. reflexivity.
Qed.

(** The [While] case around its loop. *)
Lemma evaluate_While n c b state o0 v0 s0 :
  evaluate n c state = (o0, Returns (v0, Boolean, s0)) ->
  evaluate n (While c b) state
  = (o0 ++ fst (while_loop (evaluate n) c b n v0 s0),
     match snd (while_loop (evaluate n) c b n v0 s0) with
     | Returns s' => Returns (VBool false, Boolean, s')
     | Raises e => Raises e
     | Stuck => Stuck
     | OutOfFuel => OutOfFuel
     end).
Proof.
  intros Hc. cbn [evaluate]. rewrite Hc, bind_Returns. cbn beta iota.
  cbn [type_eqb negb].
  destruct (while_loop (evaluate n) c b n v0 s0) as [o [s' | e | | ]];
    cbn [bind ret fst snd]; rewrite ?app_nil_r; reflexivity.
Qed.

(** Passes that end are what the loop computes, given fuel for them. *)
Lemma while_loop_of_passes fuel c b k v s o s' :
  passes fuel c b k v s o s' ->
  forall n n', (fuel <= n)%nat -> (k <= n')%nat ->
    while_loop (evaluate n) c b n' v s = (o, Returns s').
Proof.
  induction 1 as [v s Hv | k v s ob bv bt s1 oc cv ct s2 o s' o' Hv Hb Hc _ IH ->];
    intros n n' Hn Hk.
  - destruct n'; cbn [while_loop]; rewrite Hv; reflexivity.
  - destruct n' as [| n']; [lia |].
    rewrite (while_loop_pass n n' c b v s ob bv bt s1 oc cv ct s2 Hv).
    + rewrite (IH n n') by lia. reflexivity.
    + apply (evaluate_fuel_le fuel n); [exact Hn | exact Hb | discriminate].
    + apply (evaluate_fuel_le fuel n); [exact Hn | exact Hc | discriminate].
Qed.

(** A loop that returned went through passes that end. *)
Lemma passes_of_while_loop fuel c b n :
  forall v s o s',
    while_loop (evaluate fuel) c b n v s = (o, Returns s') ->
    exists k, (k <= n)%nat /\ passes fuel c b k v s o s'.
Proof.
  assert (Hdone : forall v s o s' n0,
             truthy v = false ->
             while_loop (evaluate fuel) c b n0 v s = (o, Returns s') ->
             passes fuel c b 0 v s o s').
  { intros v s o s' n0 Hv H. destruct n0; cbn [while_loop] in H; rewrite Hv in H;
      injection H as <- <-; apply passes_done, Hv. }
  induction n as [| n IH]; intros v s o s' H;
    destruct (truthy v) eqn:Hv;
    try (exists 0%nat; split; [lia | eapply Hdone; eassumption]).
  - cbn [while_loop] in H. rewrite Hv in H. discriminate H.
  - cbn [while_loop] in H. rewrite Hv in H.
    apply bind_inv_Returns in H as (o1 & [cv s2] & o2 & Hpass & Hrest & ->).
    unfold while_pass in Hpass.
    apply bind_inv_Returns in Hpass as (ob & [[bv bt] s1] & o3 & Hb & Hpass & ->).
    apply bind_inv_Returns in Hpass as (oc & [[cv' ct] s2'] & o4 & Hc & Hret & ->).
    injection Hret as <- <- <-.
    apply IH in Hrest as (k & Hk & Hpasses).
    exists (S k). split; [lia |].
    eapply passes_more; try eassumption.
    rewrite app_nil_r, <- app_assoc. reflexivity.
Qed.

(** A [While] whose condition first returns with type [Boolean] and whose
    passes end returns, given fuel for its passes. *)
Lemma evaluate_While_of_passes fuel condition body state o0 v0 s0 k o s' :
  evaluate fuel condition state = (o0, Returns (v0, Boolean, s0)) ->
  passes fuel condition body k v0 s0 o s' ->
  forall n, (Nat.max fuel k <= n)%nat ->
    evaluate n (While condition body) state
    = (o0 ++ o, Returns (VBool false, Boolean, s')).
Proof.
  intros Hc Hp n Hn.
  rewrite (evaluate_While n condition body state o0 v0 s0).
  - rewrite (while_loop_of_passes _ _ _ _ _ _ _ _ Hp n n) by lia. reflexivity.
  - apply (evaluate_fuel_le fuel n); [lia | exact Hc | discriminate].
Qed.

(** C1: a [While] that ends normally (its condition first returns with type
    [Boolean], and after some number [k] of passes, possibly none, returns a
    falsy payload) returns the value false with type [Boolean] and the state
    left by the last evaluation of the condition, for every [k] and whatever
    the body returned: with enough fuel that is the result, and no fuel gives
    another one.  Conversely, whenever a [While] returns, it returns false
    with type [Boolean], and ended in that way. *)
Theorem while_returns_false :
  (forall fuel condition body state o0 v0 s0 k o s',
      evaluate fuel condition state = (o0, Returns (v0, Boolean, s0)) ->
      passes fuel condition body k v0 s0 o s' ->
      (exists fuel', forall n, (fuel' <= n)%nat ->
         evaluate n (While condition body) state
         = (o0 ++ o, Returns (VBool false, Boolean, s'))) /\
      (forall n o' r,
          evaluate n (While condition body) state = (o', Returns r) ->
          o' = o0 ++ o /\ r = (VBool false, Boolean, s'))) /\
  (forall fuel condition body state o v t s',
      evaluate fuel (While condition body) state = (o, Returns (v, t, s')) ->
      v = VBool false /\ t = Boolean /\
      exists o0 v0 s0 k o1,
        evaluate fuel condition state = (o0, Returns (v0, Boolean, s0)) /\
        passes fuel condition body k v0 s0 o1 s' /\ o = o0 ++ o1).
Proof.
  split.
  - intros fuel condition body state o0 v0 s0 k o s' Hc Hp. split.
    + exists (Nat.max fuel k). apply (evaluate_While_of_passes _ _ _ _ _ _ _ _ _ _ Hc Hp).
    + intros n o' r Hn.
      pose proof (evaluate_While_of_passes _ _ _ _ _ _ _ _ _ _ Hc Hp
                    (Nat.max n (Nat.max fuel k)) ltac:(lia)) as Hbig.
      rewrite (evaluate_fuel_le n (Nat.max n (Nat.max fuel k)) _ _ _ _
                 ltac:(lia) Hn ltac:(discriminate)) in Hbig.
      injection Hbig as -> ->. split; reflexivity.
  - intros fuel condition body state o v t s' H.
    cbn [evaluate] in H.
    apply bind_inv_Returns in H as (o0 & [[v0 t0] s0] & o1 & Hc & H & ->).
    destruct (type_eqb t0 Boolean) eqn:Ht; cbn [negb] in H; [| discriminate H].
    apply type_eqb_eq in Ht. subst t0.
    apply bind_inv_Returns in H as (o2 & s2 & o3 & Hloop & Hret & ->).
    injection Hret as <- <- <- <-.
    apply passes_of_while_loop in Hloop as (k & _ & Hp).
    split; [reflexivity | split; [reflexivity |]].
    exists o0, v0, s0, k, o2. rewrite app_nil_r. auto.
Qed.

(** A counter from 0 to 2: two passes, the body returning integers. *)
Lemma while_returns_false_witness :
  let condition := Lt (Variable_ "i") (IntLiteral 2) in
  let body := Assign "i" (Add (Variable_ "i") (IntLiteral 1)) in
  let state := StateNode "i" (VInt 0, Integer) EmptyState in
  let final := StateNode "i" (VInt 2, Integer)
                 (StateNode "i" (VInt 1, Integer) state) in
  (exists fuel', forall n, (fuel' <= n)%nat ->
     evaluate n (While condition body) state
     = ([], Returns (VBool false, Boolean, final))) /\
  (forall n o' r,
      evaluate n (While condition body) state = (o', Returns r) ->
      o' = [] /\ r = (VBool false, Boolean, final)).
Proof.
  intros condition body state final.
  apply (proj1 while_returns_false 0%nat condition body state
           [] (VBool true) state 2%nat [] final).
  - reflexivity.
  - eapply passes_more; [reflexivity | reflexivity | reflexivity | | reflexivity].
    eapply passes_more; [reflexivity | reflexivity | reflexivity | | reflexivity].
    apply passes_done. reflexivity.
Defined.

(** C9: only the first evaluation of a [While] condition is checked against
    [Boolean]: there, another type is the type error.  After a first pass,
    the condition's new payload [cv] decides alone, whatever type [ct] came
    with it: falsy, the loop ends and returns; truthy, the body runs again
    (its exception is the loop's, and passes that end from there give the
    loop's result).  No type error arises from [ct]. *)
Theorem while_condition_type_checked_once :
  (forall fuel condition body state o0 v0 t0 s0,
      evaluate fuel condition state = (o0, Returns (v0, t0, s0)) ->
      t0 <> Boolean ->
      evaluate fuel (While condition body) state = (o0, Raises InterpTypeError)) /\
  (forall fuel condition body state o0 v0 s0 ob bv bt s1 oc cv ct s2,
      evaluate fuel condition state = (o0, Returns (v0, Boolean, s0)) ->
      truthy v0 = true ->
      evaluate fuel body s0 = (ob, Returns (bv, bt, s1)) ->
      evaluate fuel condition s1 = (oc, Returns (cv, ct, s2)) ->
      (truthy cv = false ->
       exists fuel', forall n, (fuel' <= n)%nat ->
         evaluate n (While condition body) state
         = (o0 ++ ob ++ oc, Returns (VBool false, Boolean, s2))) /\
      (truthy cv = true ->
       (forall k o s',
           passes fuel condition body k cv s2 o s' ->
           exists fuel', forall n, (fuel' <= n)%nat ->
             evaluate n (While condition body) state
             = (o0 ++ ob ++ oc ++ o, Returns (VBool false, Boolean, s'))) /\
       (forall ob2 err,
           evaluate fuel body s2 = (ob2, Raises err) ->
           exists fuel', forall n, (fuel' <= n)%nat ->
             evaluate n (While condition body) state
             = (o0 ++ ob ++ oc ++ ob2, Raises err)))).
Proof.
  split.
  { intros fuel condition body state o0 v0 t0 s0 Hc0 Ht0.
    apply type_eqb_neq in Ht0.
    cbn [evaluate]. rewrite Hc0, bind_Returns. cbn beta iota. rewrite Ht0.
    cbn. rewrite app_nil_r. reflexivity. }
  intros fuel condition body state o0 v0 s0 ob bv bt s1 oc cv ct s2 Hc0 Hv0 Hb Hc.
  assert (Hfrom : forall k o s',
             passes fuel condition body k cv s2 o s' ->
             exists fuel', forall n, (fuel' <= n)%nat ->
               evaluate n (While condition body) state
               = (o0 ++ ob ++ oc ++ o, Returns (VBool false, Boolean, s'))).
  { intros k o s' Hp. exists (Nat.max fuel (S k)).
    apply (evaluate_While_of_passes fuel condition body state o0 v0 s0 (S k)
             (ob ++ oc ++ o) s' Hc0).
    eapply passes_more; [exact Hv0 | exact Hb | exact Hc | exact Hp | reflexivity]. }
  split; [| intros Hcv; split].
  - intros Hcv. destruct (Hfrom 0%nat [] s2 (passes_done _ _ _ _ _ Hcv)) as [fuel' H].
    exists fuel'. intros n Hn. rewrite (H n Hn), !app_nil_r. reflexivity.
  - exact Hfrom.
  - intros ob2 err Hb2. exists (Nat.max fuel 2). intros n Hn.
    assert (Hup : forall e s o (r : Outcome Result),
               evaluate fuel e s = (o, r) -> r <> OutOfFuel ->
               evaluate n e s = (o, r)).
    { intros e s o r. apply evaluate_fuel_le. lia. }
    rewrite (evaluate_While n condition body state o0 v0 s0)
      by (apply Hup; [exact Hc0 | discriminate]).
    destruct n as [| [| n]]; [lia | lia |].
    rewrite (while_loop_pass _ _ _ _ _ _ ob bv bt s1 oc cv ct s2 Hv0)
      by (apply Hup; [assumption | discriminate]).
    rewrite (while_loop_body_Raises _ _ _ _ _ _ ob2 err Hcv)
      by (apply Hup; [assumption | discriminate]).
    reflexivity.
Qed.

(** The condition is [true] while [first] holds and the integer [n]
    afterwards; the body clears [first] and counts [n] down.  From [n = 1] the
    second condition is the integer 0 and the loop ends; from [n = 2] it is
    the integer 1 and the loop goes on, to end one pass later.  With [first]
    cleared from the start the first condition is an integer: the type
    error. *)
Lemma while_condition_type_checked_once_witness :
  let condition := If (Variable_ "first") (BooleanLiteral true) (Variable_ "n") in
  let body := Sequence [Assign "first" (BooleanLiteral false);
                        Assign "n" (Subtract (Variable_ "n") (IntLiteral 1))] in
  let start (n : Z) := StateNode "n" (VInt n, Integer)
                         (StateNode "first" (VBool true, Boolean) EmptyState) in
  let pass (n : Z) (s : State) := StateNode "n" (VInt n, Integer)
                                    (StateNode "first" (VBool false, Boolean) s) in
  evaluate 0 (While condition body) (pass 2 EmptyState)
  = ([], Raises InterpTypeError) /\
  (exists fuel', forall n, (fuel' <= n)%nat ->
     evaluate n (While condition body) (start 1)
     = ([], Returns (VBool false, Boolean, pass 0 (start 1)))) /\
  (exists fuel', forall n, (fuel' <= n)%nat ->
     evaluate n (While condition body) (start 2)
     = ([], Returns (VBool false, Boolean, pass 0 (pass 1 (start 2))))).
Proof.
  intros condition body start pass. split; [| split].
  - apply (proj1 while_condition_type_checked_once 0%nat condition body
             (pass 2 EmptyState) [] (VInt 2) Integer (pass 2 EmptyState)).
    + reflexivity.
    + discriminate.
  - apply (proj1 (proj2 while_condition_type_checked_once
                    0%nat condition body (start 1)
                    [] (VBool true) (start 1) [] (VInt 0) Integer (pass 0 (start 1))
                    [] (VInt 0) Integer (pass 0 (start 1))
                    eq_refl eq_refl eq_refl eq_refl)).
    reflexivity.
  - apply (proj1 (proj2 (proj2 while_condition_type_checked_once
                           0%nat condition body (start 2)
                           [] (VBool true) (start 2) [] (VInt 1) Integer (pass 1 (start 2))
                           [] (VInt 1) Integer (pass 1 (start 2))
                           eq_refl eq_refl eq_refl eq_refl) eq_refl)
             1%nat [] (pass 0 (pass 1 (start 2)))).
    eapply passes_more; [reflexivity | reflexivity | reflexivity | | reflexivity].
    apply passes_done. reflexivity.
Defined.

(** ** Payloads that fit their tags *)

Lemma get_value_fits s name v t :
  state_fits s = true -> get_value s name = Some (v, t) -> fits v t = true.
Proof.
  induction s as [| n [v' t'] s IH]; cbn [state_fits get_value]; [discriminate |].
  intros Hs Hget. apply andb_true_iff in Hs as [Hv Hs].
  destruct (String.eqb name n); [injection Hget as <- <-; exact Hv | auto].
Qed.

(** From a state whose payloads fit their tags, [evaluate] is never stuck, and
    what it returns fits again: the operators of the model are defined
    wherever such an evaluation applies them. *)
Lemma evaluate_wf (e : Expr) :
  forall (n : nat) (s : State),
    state_fits s = true -> ensures result_fits False (evaluate n e s).
Proof.
  induction e as [e IH] using Expr_children_ind. intros n s Hs.
  destruct e; split_children IH; cbn [evaluate].
  all: try solve [apply ensures_ret; split; [reflexivity | exact Hs]].
  all: try solve [
    eapply ensures_bind; [solve [eauto] | intros [[lv lt] s1] [Hlv Hs1]];
    eapply ensures_bind; [solve [eauto] | intros [[rv rt] s2] [Hrv Hs2]];
    cbn [fst snd] in *;
    destruct lt, lv; try discriminate Hlv; destruct rt, rv; try discriminate Hrv;
    cbn; rewrite ?py_and_bool, ?py_or_bool;
    try exact I; try (split; [reflexivity | assumption]) ].
  - (* Print *)
    eapply ensures_bind; [solve [eauto] | intros [[v t] s1] Hr].
    eapply ensures_bind with (P := fun _ => True); [exact I | intros _ _].
    apply ensures_ret. exact Hr.
  - (* Sequence *)
    apply for_each_ensures with (Inv := fun s => state_fits s = true);
      [intros r Hr; apply Hr
      | eapply Forall_impl; [| exact IH]; cbn beta; auto
      | split; [reflexivity | exact Hs]].
  - (* Program *)
    apply for_each_ensures with (Inv := fun s => state_fits s = true);
      [intros r Hr; apply Hr
      | eapply Forall_impl; [| exact IH]; cbn beta; auto
      | split; [reflexivity | exact Hs]].
  - (* Variable *)
    destruct (get_value s variable_name) as [[v t] |] eqn:Hget; [| exact I].
    apply ensures_ret. split; [exact (get_value_fits _ _ _ _ Hs Hget) | exact Hs].
  - (* Assign *)
    eapply ensures_bind; [solve [eauto] | intros [[v t] s1] [Hv Hs1]].
    cbn [fst snd] in Hv, Hs1.
    assert (Hnew : result_fits (v, t, set_value s1 variable v t)).
    { split; [exact Hv |]. cbn. rewrite Hv, Hs1. reflexivity. }
    destruct (get_value s1 variable) as [[v' t'] |];
      [destruct (negb (type_eqb t t')); [exact I |] |]; apply ensures_ret, Hnew.
  - (* Divide *)
    eapply ensures_bind; [solve [eauto] | intros [[lv lt] s1] [Hlv Hs1]].
    eapply ensures_bind; [solve [eauto] | intros [[rv rt] s2] [Hrv Hs2]].
    cbn [fst snd] in *.
    destruct (py_eq_zero rv) eqn:Hz; [exact I |].
    destruct lt, lv; try discriminate Hlv; destruct rt, rv; try discriminate Hrv;
      cbn in Hz |- *; rewrite ?Hz; cbn;
      try exact I; (split; [reflexivity | assumption]).
  - (* Not *)
    eapply ensures_bind; [solve [eauto] | intros [[v t] s1] [Hv Hs1]].
    destruct (type_eqb t Boolean); [| exact I].
    apply ensures_ret. split; [reflexivity | exact Hs1].
  - (* If *)
    eapply ensures_bind; [solve [eauto] | intros [[v t] s1] [Hv Hs1]].
    destruct (negb (type_eqb t Boolean)); [exact I |].
    destruct (truthy v); auto.
  - (* While *)
    eapply ensures_bind; [solve [eauto] | intros [[v t] s1] [Hv Hs1]].
    destruct (negb (type_eqb t Boolean)); [exact I |].
    eapply ensures_bind with (P := fun s => state_fits s = true);
      [| intros s2 H2; apply ensures_ret; split; [reflexivity | exact H2]].
    apply while_loop_ensures with (P := result_fits);
      [intros r Hr; apply Hr | auto | auto | exact Hs1].
Qed.

(** A program run from the empty state is never stuck. *)
Lemma run_stimpl_not_stuck fuel program o :
  run_stimpl fuel program <> (o, Stuck).
Proof.
  intros H. pose proof (evaluate_wf program fuel EmptyState eq_refl) as Hwf.
  unfold run_stimpl in H. unfold ensures in Hwf. rewrite H in Hwf. exact Hwf.
Qed.

(** ** Invariants of the state *)

Lemma get_value_In s name b : get_value s name = Some b -> In (name, b) (chain s).
Proof.
  intros H. apply get_value_Some in H as (newer & older & -> & _).
  apply in_or_app. right. left. reflexivity.
Qed.

Lemma In_get_value s name b :
  In (name, b) (chain s) -> exists b', get_value s name = Some b'.
Proof.
  intros Hin. destruct (get_value s name) as [b' |] eqn:Hget; [exists b'; reflexivity |].
  apply get_value_None in Hget. exfalso. apply Hget.
  apply in_map_iff. exists (name, b). split; [reflexivity | exact Hin].
Qed.

Section StateInvariant.
Variable Inv : State -> Prop.
Hypothesis Inv_assign : forall s name v t,
    Inv s -> assignable s name t -> Inv (set_value s name v t).

(** A property of the state that every permitted [Assign] keeps is kept by
    every evaluation. *)
Lemma evaluate_invariant (e : Expr) :
  forall (n : nat) (s : State),
    Inv s -> ensures (fun r => Inv (snd r)) True (evaluate n e s).
Proof.
  induction e as [e IH] using Expr_children_ind. intros n s Hs.
  destruct e; split_children IH; cbn [evaluate].
  all: try solve [repeat (ensures_step; cbn [snd] in * ); eauto].
  - apply for_each_ensures with (Inv := Inv);
      [auto | eapply Forall_impl; [| exact IH]; cbn beta; auto | exact Hs].
  - apply for_each_ensures with (Inv := Inv);
      [auto | eapply Forall_impl; [| exact IH]; cbn beta; auto | exact Hs].
  - eapply ensures_bind; [apply IH0, Hs | intros [[v t] s1] H1; cbn [snd] in H1].
    destruct (get_value s1 variable) as [[v' t'] |] eqn:Hget.
    + destruct (type_eqb t t') eqn:Ht; cbn [negb]; [| apply ensures_raise].
      apply ensures_ret. cbn [snd]. apply Inv_assign; [exact H1 |].
      unfold assignable. rewrite Hget. symmetry. apply type_eqb_eq, Ht.
    + apply ensures_ret. cbn [snd]. apply Inv_assign; [exact H1 |].
      unfold assignable. rewrite Hget. exact I.
  - eapply ensures_bind; [apply IH0, Hs | intros [[cv ct] s1] H1; cbn [snd] in H1].
    destruct (negb (type_eqb ct Boolean)); [apply ensures_raise |].
    eapply ensures_bind with (P := Inv);
      [| intros s2 H2; apply ensures_ret; exact H2].
    apply while_loop_ensures with (P := fun r => Inv (snd r)); auto.
Qed.
End StateInvariant.

Lemma keeps_types_refl s : keeps_types s s.
Proof. intros name v t H. exists v. exact H. Qed.

Lemma keeps_types_trans s1 s2 s3 :
  keeps_types s1 s2 -> keeps_types s2 s3 -> keeps_types s1 s3.
Proof.
  intros H12 H23 name v t H. destruct (H12 _ _ _ H) as [v' H']. exact (H23 _ _ _ H').
Qed.

Lemma keeps_types_set_value s name v t :
  assignable s name t -> keeps_types s (set_value s name v t).
Proof.
  unfold assignable. intros Hok other v0 t0 Hget.
  unfold set_value. cbn [get_value].
  destruct (String.eqb_spec other name) as [-> | _].
  - rewrite Hget in Hok. subst t0. exists v. reflexivity.
  - exists v0. exact Hget.
Qed.

Lemma one_type_per_name_set_value s name v t :
  one_type_per_name s -> assignable s name t ->
  one_type_per_name (set_value s name v t).
Proof.
  unfold one_type_per_name, assignable. intros Hs Hok x v1 t1 v2 t2.
  assert (Hold : forall v' t', In (name, (v', t')) (chain s) -> t' = t).
  { intros v' t' Hin. destruct (In_get_value _ _ _ Hin) as [[v0 t0] Hget].
    rewrite Hget in Hok. subst t0.
    exact (Hs _ _ _ _ _ Hin (get_value_In _ _ _ Hget)). }
  cbn [set_value chain In].
  intros [H1 | H1] [H2 | H2]; try (inversion H1; subst); try (inversion H2; subst).
  - reflexivity.
  - symmetry. exact (Hold _ _ H2).
  - exact (Hold _ _ H1).
  - exact (Hs _ _ _ _ _ H1 H2).
Qed.

Lemma chain_inj s1 : forall s2, chain s1 = chain s2 -> s1 = s2.
Proof.
  induction s1 as [| n b s1 IH]; intros [| n' b' s2] H; cbn [chain] in H;
    try discriminate H; [reflexivity |].
  injection H as -> -> H. rewrite (IH _ H). reflexivity.
Qed.

(** Bindings put in front of a state do not change what the other names
    read. *)
Lemma get_value_behind newer : forall s s' name,
  chain s' = newer ++ chain s -> ~ In name (map fst newer) ->
  get_value s' name = get_value s name.
Proof.
  induction newer as [| [n b] newer IH]; intros s s' name Hchain Hnew.
  - apply chain_inj in Hchain. subst s'. reflexivity.
  - destruct s' as [| n' b' s'']; cbn [chain app] in Hchain; [discriminate Hchain |].
    injection Hchain as -> -> Hchain. cbn [get_value].
    destruct (String.eqb_spec name n) as [-> | _].
    + exfalso. apply Hnew. left. reflexivity.
    + apply (IH s s'' name Hchain). intros Hin. apply Hnew. right. exact Hin.
Qed.

(** X1: an evaluation that returns has only put bindings in front of the
    state it was given: the old chain is the tail of the new one, and every
    name that is not among the new bindings reads as before. *)
Theorem evaluate_only_adds_bindings fuel e s o v t s' :
  evaluate fuel e s = (o, Returns (v, t, s')) ->
  exists newer,
    chain s' = newer ++ chain s /\
    forall name, ~ In name (map fst newer) -> get_value s' name = get_value s name.
Proof.
  intros H. destruct (evaluate_Returns_extends _ _ _ _ _ _ _ H) as [newer Hchain].
  exists newer. split; [exact Hchain |].
  intros name Hnew. exact (get_value_behind newer s s' name Hchain Hnew).
Qed.

Lemma evaluate_only_adds_bindings_witness :
  let s := StateNode "y" (VInt 7, Integer) EmptyState in
  let e := Sequence [Assign "x" (IntLiteral 1); Assign "x" (IntLiteral 2)] in
  exists newer,
    chain (StateNode "x" (VInt 2, Integer) (StateNode "x" (VInt 1, Integer) s))
    = newer ++ chain s /\
    forall name, ~ In name (map fst newer) ->
      get_value (StateNode "x" (VInt 2, Integer) (StateNode "x" (VInt 1, Integer) s)) name
      = get_value s name.
Proof.
  intros s e.
  apply (evaluate_only_adds_bindings 0%nat e s [] (VInt 2) Integer).
  reflexivity.
Defined.

(** X2: a variable never changes type: a name bound with type [t0] before an
    evaluation that returns is bound with type [t0] after it (the value may
    have changed). *)
Theorem variable_type_never_changes fuel e s o v t s' name v0 t0 :
  evaluate fuel e s = (o, Returns (v, t, s')) ->
  get_value s name = Some (v0, t0) ->
  exists v', get_value s' name = Some (v', t0).
Proof.
  intros He Hget.
  assert (Hk : ensures (fun r => keeps_types s (snd r)) True (evaluate fuel e s)).
  { apply (evaluate_invariant (keeps_types s)); [| apply keeps_types_refl].
    intros s1 x v1 t1 Hs1 Hok.
    exact (keeps_types_trans _ _ _ Hs1 (keeps_types_set_value s1 x v1 t1 Hok)). }
  exact (ensures_Returns _ _ _ _ _ Hk He name v0 t0 Hget).
Qed.

Lemma variable_type_never_changes_witness :
  let s := StateNode "x" (VInt 1, Integer) EmptyState in
  exists v', get_value (StateNode "x" (VInt 6, Integer) s) "x" = Some (v', Integer).
Proof.
  intros s.
  apply (variable_type_never_changes 0%nat
           (Assign "x" (Add (Variable_ "x") (IntLiteral 5))) s
           [] (VInt 6) Integer (StateNode "x" (VInt 6, Integer) s)
           "x"%string (VInt 1) Integer);
    reflexivity.
Defined.

(** X3: from a state in which every payload is of the kind its tag stands
    for, no operator is ever applied to payloads of another kind (the
    evaluation is never stuck), and what is returned fits again: the payload
    fits the returned type, and so does every binding of the new state. *)
Theorem well_typed_state_is_kept fuel e s o r :
  state_fits s = true ->
  evaluate fuel e s = (o, r) ->
  r <> Stuck /\
  forall v t s', r = Returns (v, t, s') -> fits v t = true /\ state_fits s' = true.
Proof.
  intros Hs He. pose proof (evaluate_wf e fuel s Hs) as Hwf.
  unfold ensures in Hwf. rewrite He in Hwf. cbn [snd] in Hwf. split.
  - intros ->. exact Hwf.
  - intros v t s' ->. exact Hwf.
Qed.

Lemma well_typed_state_is_kept_witness :
  let s := StateNode "s" (VStr "ab", String) EmptyState in
  Returns (VStr "abab", String, s) <> Stuck /\
  forall v t s', Returns (VStr "abab", String, s) = Returns (v, t, s') ->
                 fits v t = true /\ state_fits s' = true.
Proof.
  intros s.
  apply (well_typed_state_is_kept 0%nat (Add (Variable_ "s") (Variable_ "s")) s []);
    reflexivity.
Defined.

(** X4: a state in which all the bindings of each name carry one type stays
    so through every evaluation; so the state returned by [run_stimpl], which
    starts from the empty state, has one type per name, payloads that fit
    their tags, and a value that fits its type. *)
Theorem one_type_per_name_is_kept :
  (forall fuel e s o v t s',
      one_type_per_name s ->
      evaluate fuel e s = (o, Returns (v, t, s')) ->
      one_type_per_name s') /\
  (forall fuel program o v t s',
      run_stimpl fuel program = (o, Returns (v, t, s')) ->
      one_type_per_name s' /\ state_fits s' = true /\ fits v t = true).
Proof.
  assert (Hkept : forall fuel e s o v t s',
             one_type_per_name s ->
             evaluate fuel e s = (o, Returns (v, t, s')) ->
             one_type_per_name s').
  { intros fuel e s o v t s' Hs He.
    exact (ensures_Returns _ _ _ _ _
             (evaluate_invariant one_type_per_name one_type_per_name_set_value
                e fuel s Hs) He). }
  split; [exact Hkept |].
  intros fuel program o v t s' Hrun. unfold run_stimpl in Hrun. split.
  - assert (Hempty : one_type_per_name EmptyState).
    { intros name v1 t1 v2 t2 H. destruct H. }
    exact (Hkept _ _ _ _ _ _ _ Hempty Hrun).
  - pose proof (ensures_Returns _ _ _ _ _ (evaluate_wf program fuel EmptyState eq_refl) Hrun)
      as [Hv Hs'].
    split; [exact Hs' | exact Hv].
Qed.

Lemma one_type_per_name_is_kept_witness :
  let program := Program [Assign "x" (IntLiteral 1); Assign "x" (IntLiteral 2)] in
  let final := StateNode "x" (VInt 2, Integer)
                 (StateNode "x" (VInt 1, Integer) EmptyState) in
  one_type_per_name final /\ state_fits final = true /\ fits (VInt 2) Integer = true.
Proof.
  intros program final.
  apply (proj2 one_type_per_name_is_kept 0%nat program []).
  reflexivity.
Defined.

(** ** Nodes an expression does not contain *)

Lemma some_node_children p e :
  some_node p e = false -> Forall (fun e1 => some_node p e1 = false) (children e).
Proof.
  assert (Hall : forall es, existsb (some_node p) es = false ->
                            Forall (fun e1 => some_node p e1 = false) es).
  { induction es as [| e1 es IH]; cbn [existsb]; intros H; constructor;
      apply orb_false_iff in H; [apply H | apply IH, H]. }
  destruct e; cbn [some_node children]; intros H;
    apply orb_false_iff in H; destruct H as [_ H];
    repeat (apply orb_false_iff in H; destruct H as [H ?]);
    repeat constructor; auto.
Qed.

Lemma some_node_here p e : some_node p e = false -> p e = false.
Proof.
  destruct e; cbn [some_node]; intros H; apply orb_false_iff in H; apply H.
Qed.

(** With the hypothesis that [e] has no node of some kind, one induction
    hypothesis per child, each with its own such hypothesis discharged. *)
Ltac split_clean_children IH Hclean :=
  apply some_node_children in Hclean;
  cbn [children] in IH, Hclean;
  repeat match type of IH with
         | Forall _ (_ :: _) =>
             let H1 := fresh "IH" in
             let H2 := fresh "IHrest" in
             let C1 := fresh "Hc" in
             let C2 := fresh "Hcrest" in
             apply Forall_cons_iff in IH; destruct IH as [H1 H2];
             apply Forall_cons_iff in Hclean; destruct Hclean as [C1 C2];
             specialize (H1 C1); rename H2 into IH; rename C2 into Hclean
         end.

Lemma Forall_clean (P : Expr -> Prop) p es :
  Forall (fun e => some_node p e = false -> P e) es ->
  Forall (fun e => some_node p e = false) es ->
  Forall P es.
Proof.
  induction 1 as [| e es He _ IH]; intros Hc; constructor;
    apply Forall_cons_iff in Hc; [apply He, Hc | apply IH, Hc].
Qed.

Lemma silent_bind {A B} (m : M A) (f : A -> M B) :
  silent m -> (forall a, silent (f a)) -> silent (bind m f).
Proof.
  unfold silent. destruct m as [o [a | e | | ]]; cbn [fst bind]; intros ->; auto.
  intros Hf. specialize (Hf a). destruct (f a) as [o' r]. exact Hf.
Qed.

Lemma halts_bind {A B} (m : M A) (f : A -> M B) :
  halts m -> (forall a, halts (f a)) -> halts (bind m f).
Proof.
  unfold halts. destruct m as [o [a | e | | ]]; cbn [snd bind]; intros Hm Hf;
    try discriminate.
  - specialize (Hf a). destruct (f a) as [o' r]. exact Hf.
  - exfalso. apply Hm. reflexivity.
Qed.

Ltac silent_step :=
  match goal with
  | |- silent (ret _) => reflexivity
  | |- silent (raise _) => reflexivity
  | |- silent (lift ?x) => destruct x; reflexivity
  | |- silent (evaluate _ _ _) => solve [auto]
  | |- silent (bind _ _) => apply silent_bind; [| intros]
  | |- silent (match ?x with _ => _ end) => destruct x
  end.

Ltac halts_step :=
  match goal with
  | |- halts (ret _) => discriminate
  | |- halts (raise _) => discriminate
  | |- halts (print _) => discriminate
  | |- halts (lift ?x) => destruct x; discriminate
  | |- halts (evaluate _ _ _) => solve [auto]
  | |- halts (bind _ _) => apply halts_bind; [| intros]
  | |- halts (match ?x with _ => _ end) => destruct x
  end.

Lemma for_each_silent ev exprs :
  Forall (fun e => forall s, silent (ev e s)) exprs ->
  forall acc, silent (for_each ev exprs acc).
Proof.
  induction 1 as [| e rest He _ IH]; intros [[v t] s]; cbn [for_each];
    [reflexivity | apply silent_bind; [apply He | exact IH]].
Qed.

Lemma for_each_halts ev exprs :
  Forall (fun e => forall s, halts (ev e s)) exprs ->
  forall acc, halts (for_each ev exprs acc).
Proof.
  induction 1 as [| e rest He _ IH]; intros [[v t] s]; cbn [for_each];
    [discriminate | apply halts_bind; [apply He | exact IH]].
Qed.

Lemma while_loop_silent ev c b :
  (forall s, silent (ev c s)) -> (forall s, silent (ev b s)) ->
  forall n v s, silent (while_loop ev c b n v s).
Proof.
  intros Hc Hb. induction n as [| n IH]; intros v s; cbn [while_loop];
    destruct (truthy v); try reflexivity.
  apply silent_bind; [| intros [v' s']; apply IH].
  unfold while_pass.
  apply silent_bind; [apply Hb | intros [[bv bt] s1]].
  apply silent_bind; [apply Hc | intros [[cv ct] s2]; reflexivity].
Qed.

(** X5: only [Print] writes: the evaluation of an expression with no
    [Print] node prints nothing, however it ends. *)
Theorem no_Print_no_output e :
  some_node is_Print e = false ->
  forall fuel s, fst (evaluate fuel e s) = [].
Proof.
  change (some_node is_Print e = false -> forall fuel s, silent (evaluate fuel e s)).
  induction e as [e IH] using Expr_children_ind. intros Hclean fuel s.
  pose proof (some_node_here _ _ Hclean) as Hhere.
  destruct e; try discriminate Hhere.
  all: try solve [split_clean_children IH Hclean; cbn [evaluate]; repeat silent_step].
  - apply some_node_children in Hclean. cbn [children] in IH, Hclean.
    cbn [evaluate]. apply for_each_silent.
    eapply Forall_impl; [| exact (Forall_clean _ _ _ IH Hclean)]. cbn beta. auto.
  - apply some_node_children in Hclean. cbn [children] in IH, Hclean.
    cbn [evaluate]. apply for_each_silent.
    eapply Forall_impl; [| exact (Forall_clean _ _ _ IH Hclean)]. cbn beta. auto.
  - split_clean_children IH Hclean. cbn [evaluate].
    apply silent_bind; [auto | intros [[cv ct] s1]].
    destruct (negb (type_eqb ct Boolean)); [reflexivity |].
    apply silent_bind; [| intros; reflexivity].
    apply while_loop_silent; auto.
Qed.

Lemma no_Print_no_output_witness :
  fst (evaluate 1 (While (Lt (Variable_ "i") (IntLiteral 1))
                         (Assign "i" (Add (Variable_ "i") (IntLiteral 1))))
                  (StateNode "i" (VInt 0, Integer) EmptyState)) = [].
Proof.
  apply (no_Print_no_output
           (While (Lt (Variable_ "i") (IntLiteral 1))
                  (Assign "i" (Add (Variable_ "i") (IntLiteral 1))))).
  reflexivity.
Defined.

(** X6: only [While] can fail to end: the evaluation of an expression with
    no [While] node ends whatever the fuel, and the fuel plays no part in its
    result. *)
Theorem no_While_always_ends e :
  some_node is_While e = false ->
  forall fuel s,
    snd (evaluate fuel e s) <> OutOfFuel /\
    forall fuel', evaluate fuel' e s = evaluate fuel e s.
Proof.
  intros Hclean.
  assert (Hends : forall fuel s, halts (evaluate fuel e s)).
  { revert Hclean. induction e as [e IH] using Expr_children_ind.
    intros Hclean fuel s.
    pose proof (some_node_here _ _ Hclean) as Hhere.
    destruct e; try discriminate Hhere.
    all: try solve [split_clean_children IH Hclean; cbn [evaluate]; repeat halts_step].
    - apply some_node_children in Hclean. cbn [children] in IH, Hclean.
      cbn [evaluate]. apply for_each_halts.
      eapply Forall_impl; [| exact (Forall_clean _ _ _ IH Hclean)]. cbn beta. auto.
    - apply some_node_children in Hclean. cbn [children] in IH, Hclean.
      cbn [evaluate]. apply for_each_halts.
      eapply Forall_impl; [| exact (Forall_clean _ _ _ IH Hclean)]. cbn beta. auto. }
  intros fuel s. split; [apply Hends |].
  intros fuel'.
  transitivity (evaluate 0 e s).
  - apply evaluate_stable; [lia | apply Hends].
  - symmetry. apply evaluate_stable; [lia | apply Hends].
Qed.

Lemma no_While_always_ends_witness :
  let e := If (Lt (IntLiteral 1) (IntLiteral 2)) (Print (StringLiteral "a")) Ren in
  snd (evaluate 0 e EmptyState) <> OutOfFuel /\
  forall fuel', evaluate fuel' e EmptyState = evaluate 0 e EmptyState.
Proof.
  intros e. apply (no_While_always_ends e). reflexivity.
Defined.

(** ** While: the two ends *)

(** A loop entered with a truthy payload, whose condition only ever returns
    truthy payloads, does not return. *)
Lemma while_loop_never_Returns fuel c b :
  (forall s1 o v t s2,
      evaluate fuel c s1 = (o, Returns (v, t, s2)) -> truthy v = true) ->
  forall n v s o s',
    truthy v = true -> while_loop (evaluate fuel) c b n v s <> (o, Returns s').
Proof.
  intros Hc. induction n as [| n IH]; intros v s o s' Hv H;
    cbn [while_loop] in H; rewrite Hv in H; [discriminate H |].
  apply bind_inv_Returns in H as (o1 & [cv s2] & o2 & Hpass & Hrest & _).
  unfold while_pass in Hpass.
  apply bind_inv_Returns in Hpass as (ob & [[bv bt] s1] & o3 & _ & Hpass & _).
  apply bind_inv_Returns in Hpass as (oc & [[cv' ct] s2'] & o4 & Hcond & Hret & _).
  injection Hret as _ -> ->.
  exact (IH cv s2 o2 s' (Hc _ _ _ _ _ Hcond) Hrest).
Qed.

(** X7: a [While] whose condition can only return truthy payloads never
    returns: whatever the body and the fuel, the evaluation raises, or has
    not ended when the fuel is spent. *)
Theorem while_always_truthy_never_returns fuel c b s :
  (forall s1 o v t s2,
      evaluate fuel c s1 = (o, Returns (v, t, s2)) -> truthy v = true) ->
  returned (evaluate fuel (While c b) s) = false.
Proof.
  intros Hc. unfold returned.
  destruct (evaluate fuel (While c b) s) as [o [[[v t] s'] | e | | ]] eqn:E;
    cbn [snd]; try reflexivity.
  exfalso. cbn [evaluate] in E.
  apply bind_inv_Returns in E as (o0 & [[v0 t0] s0] & o1 & Hc0 & E & _).
  destruct (negb (type_eqb t0 Boolean)); [discriminate E |].
  apply bind_inv_Returns in E as (o2 & s2 & o3 & Hloop & _ & _).
  exact (while_loop_never_Returns fuel c b Hc fuel v0 s0 o2 s2
           (Hc _ _ _ _ _ Hc0) Hloop).
Qed.

Lemma while_always_truthy_never_returns_witness :
  returned (evaluate 5 (While (BooleanLiteral true) (Print (IntLiteral 1))) EmptyState)
  = false.
Proof.
  apply (while_always_truthy_never_returns 5 (BooleanLiteral true)).
  intros s1 o v t s2 H. injection H as _ <- _ _. reflexivity.
Defined.

(** X8: a [While] whose condition first returns a falsy [Boolean] payload
    returns at once, with any fuel and any body: the body is not evaluated,
    nothing but the condition's lines is printed, and the state is the one
    the condition left. *)
Theorem while_false_skips_body fuel c b s o0 v0 s0 :
  evaluate fuel c s = (o0, Returns (v0, Boolean, s0)) ->
  truthy v0 = false ->
  evaluate fuel (While c b) s = (o0, Returns (VBool false, Boolean, s0)).
Proof.
  intros Hc Hv. rewrite (evaluate_While fuel c b s o0 v0 s0 Hc).
  assert (Hloop : while_loop (evaluate fuel) c b fuel v0 s0 = ([], Returns s0)).
  { destruct fuel; cbn [while_loop]; rewrite Hv; reflexivity. }
  rewrite Hloop. cbn [fst snd]. rewrite app_nil_r. reflexivity.
Qed.

Lemma while_false_skips_body_witness :
  evaluate 0 (While (Lt (IntLiteral 2) (IntLiteral 1))
                    (Divide (IntLiteral 1) (IntLiteral 0))) EmptyState
  = ([], Returns (VBool false, Boolean, EmptyState)).
Proof.
  apply (while_false_skips_body 0%nat (Lt (IntLiteral 2) (IntLiteral 1))
           (Divide (IntLiteral 1) (IntLiteral 0)) EmptyState [] (VBool false));
    reflexivity.
Defined.

(** ** Binary nodes: exceptions and type errors *)

(** X9: in every binary node an exception of the left operand is the node's
    exception and the right operand is not evaluated (nothing of it is
    printed); an exception of the right operand, after the left one returned,
    is the node's exception too, before any test of the node. *)
Theorem binary_nodes_propagate_exceptions fuel op l r s :
  In op binary_nodes ->
  (forall o err,
      evaluate fuel l s = (o, Raises err) ->
      evaluate fuel (op l r) s = (o, Raises err)) /\
  (forall o1 lv lt s1 o2 err,
      evaluate fuel l s = (o1, Returns (lv, lt, s1)) ->
      evaluate fuel r s1 = (o2, Raises err) ->
      evaluate fuel (op l r) s = (o1 ++ o2, Raises err)).
Proof.
  intros Hop. cbn [binary_nodes In] in Hop.
  repeat (destruct Hop as [<- | Hop]); [.. | contradiction]; split.
  all: try (intros o err Hl; cbn [evaluate]; rewrite Hl; reflexivity).
  all: intros o1 lv lt s1 o2 err Hl Hr; run_left Hl Hr; reflexivity.
Qed.

Lemma binary_nodes_propagate_exceptions_witness :
  evaluate 0 (Add (Variable_ "x") (Print (IntLiteral 1))) EmptyState
  = ([], Raises InterpSyntaxError) /\
  evaluate 0 (Lt (Print (IntLiteral 1)) (Variable_ "x")) EmptyState
  = ([LineOf (VInt 1)], Raises InterpSyntaxError).
Proof.
  split.
  - apply (proj1 (binary_nodes_propagate_exceptions 0%nat Add (Variable_ "x")
                    (Print (IntLiteral 1)) EmptyState (or_introl eq_refl))).
    reflexivity.
  - apply (proj2 (binary_nodes_propagate_exceptions 0%nat Lt (Print (IntLiteral 1))
                    (Variable_ "x") EmptyState
                    (or_intror (or_intror (or_intror (or_intror (or_intror
                       (or_intror (or_introl eq_refl))))))))
             [LineOf (VInt 1)] (VInt 1) Integer EmptyState []);
      reflexivity.
Defined.

(** X10: operands that return with two different types are a type error in
    every binary node: at once in all but [Divide], and in [Divide] when the
    divisor's payload is not zero (a zero payload is the math error
    first). *)
Theorem binary_nodes_reject_mixed_types fuel l r s o1 lv lt s1 o2 rv rt s2 :
  evaluate fuel l s = (o1, Returns (lv, lt, s1)) ->
  evaluate fuel r s1 = (o2, Returns (rv, rt, s2)) ->
  lt <> rt ->
  (forall op, In op type_first_nodes ->
              evaluate fuel (op l r) s = (o1 ++ o2, Raises InterpTypeError)) /\
  (py_eq_zero rv = false ->
   evaluate fuel (Divide l r) s = (o1 ++ o2, Raises InterpTypeError)).
Proof.
  intros Hl Hr Hne. apply type_eqb_neq in Hne. split.
  - intros op Hop. cbn [type_first_nodes In] in Hop.
    repeat (destruct Hop as [<- | Hop]); [.. | contradiction];
      run_operands Hl Hr; rewrite Hne; cbn; rewrite app_nil_r; reflexivity.
  - intros Hz. run_operands Hl Hr. rewrite Hz, Hne. cbn. rewrite app_nil_r.
    reflexivity.
Qed.

Lemma binary_nodes_reject_mixed_types_witness :
  (forall op, In op type_first_nodes ->
              evaluate 0 (op (IntLiteral 1) (StringLiteral "a")) EmptyState
              = ([], Raises InterpTypeError)) /\
  (py_eq_zero (VStr "a") = false ->
   evaluate 0 (Divide (IntLiteral 1) (StringLiteral "a")) EmptyState
   = ([], Raises InterpTypeError)).
Proof.
  apply (binary_nodes_reject_mixed_types 0%nat (IntLiteral 1) (StringLiteral "a")
           EmptyState [] (VInt 1) Integer EmptyState [] (VStr "a") String EmptyState).
  - reflexivity.
  - reflexivity.
  - discriminate.
Defined.

(** ** Not, And, Or, Eq, Ne together *)

Lemma evaluate_Not fuel e s o v s1 :
  evaluate fuel e s = (o, Returns (v, Boolean, s1)) ->
  evaluate fuel (Not e) s = (o, Returns (py_not v, Boolean, s1)).
Proof.
  intros He. cbn [evaluate]. rewrite He, bind_Returns. cbn.
  rewrite app_nil_r. reflexivity.
Qed.

Lemma evaluate_And_Boolean fuel l r s o1 lv s1 o2 rv s2 :
  evaluate fuel l s = (o1, Returns (lv, Boolean, s1)) ->
  evaluate fuel r s1 = (o2, Returns (rv, Boolean, s2)) ->
  evaluate fuel (And l r) s = (o1 ++ o2, Returns (py_and lv rv, Boolean, s2)).
Proof.
  intros Hl Hr. run_operands Hl Hr. cbn. rewrite app_nil_r. reflexivity.
Qed.

Lemma evaluate_Or_Boolean fuel l r s o1 lv s1 o2 rv s2 :
  evaluate fuel l s = (o1, Returns (lv, Boolean, s1)) ->
  evaluate fuel r s1 = (o2, Returns (rv, Boolean, s2)) ->
  evaluate fuel (Or l r) s = (o1 ++ o2, Returns (py_or lv rv, Boolean, s2)).
Proof.
  intros Hl Hr. run_operands Hl Hr. cbn. rewrite app_nil_r. reflexivity.
Qed.

(** De Morgan's laws on payloads, through their truth values. *)
Lemma py_not_and lv rv :
  py_not (py_and lv rv) = VBool (negb (truthy lv && truthy rv)).
Proof.
  unfold py_not, py_and. destruct (truthy lv) eqn:E; cbn [andb];
    [| rewrite E]; reflexivity.
Qed.

Lemma py_not_or lv rv :
  py_not (py_or lv rv) = VBool (negb (truthy lv || truthy rv)).
Proof.
  unfold py_not, py_or. destruct (truthy lv) eqn:E; cbn [orb];
    [rewrite E |]; reflexivity.
Qed.

Lemma py_or_not_not lv rv :
  py_or (py_not lv) (py_not rv) = VBool (negb (truthy lv && truthy rv)).
Proof.
  unfold py_or, py_not. cbn [truthy].
  destruct (truthy lv), (truthy rv); reflexivity.
Qed.

Lemma py_and_not_not lv rv :
  py_and (py_not lv) (py_not rv) = VBool (negb (truthy lv || truthy rv)).
Proof.
  unfold py_and, py_not. cbn [truthy].
  destruct (truthy lv), (truthy rv); reflexivity.
Qed.

(** X11: [Ne] is [Not] of [Eq]: the two expressions evaluate alike in every
    state, in value, type, state, printed lines and exceptions. *)
Theorem Ne_is_Not_Eq fuel l r s :
  evaluate fuel (Ne l r) s = evaluate fuel (Not (Eq l r)) s.
Proof.
  cbn [evaluate]. rewrite bind_assoc. apply bind_ext. intros [[lv lt] s1].
  rewrite bind_assoc. apply bind_ext. intros [[rv rt] s2].
  destruct (negb (type_eqb lt rt)); [reflexivity |].
  destruct (type_eqb lt Unit); [reflexivity |].
  unfold py_ne. destruct lv, rv; reflexivity.
Qed.

(** X12: De Morgan's laws hold between the nodes when both operands return
    with type [Boolean]: [Not(And(l, r))] and [Or(Not(l), Not(r))] return the
    same value and state and print the same lines, and so do [Not(Or(l, r))]
    and [And(Not(l), Not(r))].  The value is the negated conjunction
    (disjunction) of the payloads' truth values. *)
Theorem de_morgan fuel l r s o1 lv s1 o2 rv s2 :
  evaluate fuel l s = (o1, Returns (lv, Boolean, s1)) ->
  evaluate fuel r s1 = (o2, Returns (rv, Boolean, s2)) ->
  (evaluate fuel (Not (And l r)) s
   = (o1 ++ o2, Returns (VBool (negb (truthy lv && truthy rv)), Boolean, s2)) /\
   evaluate fuel (Or (Not l) (Not r)) s = evaluate fuel (Not (And l r)) s) /\
  (evaluate fuel (Not (Or l r)) s
   = (o1 ++ o2, Returns (VBool (negb (truthy lv || truthy rv)), Boolean, s2)) /\
   evaluate fuel (And (Not l) (Not r)) s = evaluate fuel (Not (Or l r)) s).
Proof.
  intros Hl Hr.
  pose proof (evaluate_Not _ _ _ _ _ _ Hl) as Hnl.
  pose proof (evaluate_Not _ _ _ _ _ _ Hr) as Hnr.
  rewrite (evaluate_Not _ _ _ _ _ _ (evaluate_And_Boolean _ _ _ _ _ _ _ _ _ _ Hl Hr)).
  rewrite (evaluate_Not _ _ _ _ _ _ (evaluate_Or_Boolean _ _ _ _ _ _ _ _ _ _ Hl Hr)).
  rewrite (evaluate_Or_Boolean _ _ _ _ _ _ _ _ _ _ Hnl Hnr).
  rewrite (evaluate_And_Boolean _ _ _ _ _ _ _ _ _ _ Hnl Hnr).
  rewrite py_not_and, py_not_or, py_or_not_not, py_and_not_not.
  repeat split; reflexivity.
Qed.

Lemma de_morgan_witness :
  let l := Lt (IntLiteral 1) (IntLiteral 2) in
  let r := Print (BooleanLiteral false) in
  (evaluate 0 (Not (And l r)) EmptyState
   = ([LineOf (VBool false)], Returns (VBool true, Boolean, EmptyState)) /\
   evaluate 0 (Or (Not l) (Not r)) EmptyState = evaluate 0 (Not (And l r)) EmptyState) /\
  (evaluate 0 (Not (Or l r)) EmptyState
   = ([LineOf (VBool false)], Returns (VBool false, Boolean, EmptyState)) /\
   evaluate 0 (And (Not l) (Not r)) EmptyState = evaluate 0 (Not (Or l r)) EmptyState).
Proof.
  intros l r.
  apply (de_morgan 0%nat l r EmptyState [] (VBool true) EmptyState
           [LineOf (VBool false)] (VBool false) EmptyState);
    reflexivity.
Defined.

(** X13: [Not] returns the negated truth value of a [Boolean] operand and is
    a type error on an operand of any other type; twice applied it gives
    back a [bool] payload unchanged. *)
Theorem not_negates_booleans_only fuel e s o v t s1 :
  evaluate fuel e s = (o, Returns (v, t, s1)) ->
  (t = Boolean ->
   evaluate fuel (Not e) s = (o, Returns (VBool (negb (truthy v)), Boolean, s1)) /\
   evaluate fuel (Not (Not e)) s = (o, Returns (VBool (truthy v), Boolean, s1)) /\
   forall b, v = VBool b -> evaluate fuel (Not (Not e)) s = evaluate fuel e s) /\
  (t <> Boolean -> evaluate fuel (Not e) s = (o, Raises InterpTypeError)).
Proof.
  intros He. split.
  - intros ->. pose proof (evaluate_Not _ _ _ _ _ _ He) as Hn.
    pose proof (evaluate_Not _ _ _ _ _ _ Hn) as Hnn.
    unfold py_not in Hn, Hnn. cbn [truthy] in Hnn. rewrite negb_involutive in Hnn.
    split; [exact Hn | split; [exact Hnn |]].
    intros b ->. rewrite Hnn, He. reflexivity.
  - intros Hne. apply type_eqb_neq in Hne.
    cbn [evaluate]. rewrite He, bind_Returns. cbn beta iota. rewrite Hne.
    cbn. rewrite app_nil_r. reflexivity.
Qed.

Lemma not_negates_booleans_only_witness :
  ((Boolean = Boolean ->
    evaluate 0 (Not (BooleanLiteral true)) EmptyState
    = ([], Returns (VBool (negb (truthy (VBool true))), Boolean, EmptyState)) /\
    evaluate 0 (Not (Not (BooleanLiteral true))) EmptyState
    = ([], Returns (VBool (truthy (VBool true)), Boolean, EmptyState)) /\
    forall b, VBool true = VBool b ->
              evaluate 0 (Not (Not (BooleanLiteral true))) EmptyState
              = evaluate 0 (BooleanLiteral true) EmptyState) /\
   (Boolean <> Boolean ->
    evaluate 0 (Not (BooleanLiteral true)) EmptyState = ([], Raises InterpTypeError))) /\
  evaluate 0 (Not (IntLiteral 0)) EmptyState = ([], Raises InterpTypeError).
Proof.
  split.
  - apply (not_negates_booleans_only 0%nat (BooleanLiteral true) EmptyState
             [] (VBool true) Boolean EmptyState).
    reflexivity.
  - apply (proj2 (not_negates_booleans_only 0%nat (IntLiteral 0) EmptyState
                    [] (VInt 0) Integer EmptyState eq_refl)).
    discriminate.
Defined.

(** ** Arithmetic and comparison by type *)

(** X14: on two operands of type [Integer] with integer payloads, [Add],
    [Subtract] and [Multiply] return the exact (unbounded) sum, difference
    and product, typed [Integer]; on two [String] operands [Add] returns the
    concatenation, left payload first. *)
Theorem arithmetic_on_integers_and_strings fuel l r s o1 lv t s1 o2 rv s2 :
  evaluate fuel l s = (o1, Returns (lv, t, s1)) ->
  evaluate fuel r s1 = (o2, Returns (rv, t, s2)) ->
  (forall a b, t = Integer -> lv = VInt a -> rv = VInt b ->
     evaluate fuel (Add l r) s = (o1 ++ o2, Returns (VInt (a + b), Integer, s2)) /\
     evaluate fuel (Subtract l r) s = (o1 ++ o2, Returns (VInt (a - b), Integer, s2)) /\
     evaluate fuel (Multiply l r) s = (o1 ++ o2, Returns (VInt (a * b), Integer, s2))) /\
  (forall a b, t = String -> lv = VStr a -> rv = VStr b ->
     evaluate fuel (Add l r) s
     = (o1 ++ o2, Returns (VStr (String.append a b), String, s2))).
Proof.
  intros Hl Hr. split.
  - intros a b -> -> ->.
    repeat apply conj; run_operands Hl Hr; cbn; rewrite app_nil_r; reflexivity.
  - intros a b -> -> ->. run_operands Hl Hr. cbn. rewrite app_nil_r. reflexivity.
Qed.

Lemma arithmetic_on_integers_and_strings_witness :
  (evaluate 0 (Add (IntLiteral 7) (IntLiteral (-9))) EmptyState
   = ([], Returns (VInt (7 + -9), Integer, EmptyState)) /\
   evaluate 0 (Subtract (IntLiteral 7) (IntLiteral (-9))) EmptyState
   = ([], Returns (VInt (7 - -9), Integer, EmptyState)) /\
   evaluate 0 (Multiply (IntLiteral 7) (IntLiteral (-9))) EmptyState
   = ([], Returns (VInt (7 * -9), Integer, EmptyState))) /\
  evaluate 0 (Add (StringLiteral "ab") (StringLiteral "c")) EmptyState
  = ([], Returns (VStr (String.append "ab" "c"), String, EmptyState)).
Proof.
  split.
  - apply (proj1 (arithmetic_on_integers_and_strings 0%nat (IntLiteral 7) (IntLiteral (-9))
                    EmptyState [] (VInt 7) Integer EmptyState [] (VInt (-9)) EmptyState
                    eq_refl eq_refl) 7 (-9));
      reflexivity.
  - apply (proj2 (arithmetic_on_integers_and_strings 0%nat
                    (StringLiteral "ab") (StringLiteral "c")
                    EmptyState [] (VStr "ab") String EmptyState [] (VStr "c") EmptyState
                    eq_refl eq_refl) "ab"%string "c"%string);
      reflexivity.
Defined.

(** X15: the arithmetic nodes are a type error on operands of one and the
    same type that they do not support: [Boolean] and [Unit] for all of them,
    and [String] for [Subtract], [Multiply] and [Divide] ([Divide] once its
    zero test is passed, as it is for every string payload). *)
Theorem arithmetic_rejects_other_types fuel l r s o1 lv t s1 o2 rv s2 :
  evaluate fuel l s = (o1, Returns (lv, t, s1)) ->
  evaluate fuel r s1 = (o2, Returns (rv, t, s2)) ->
  (t = Boolean \/ t = Unit ->
   evaluate fuel (Add l r) s = (o1 ++ o2, Raises InterpTypeError)) /\
  (t = Boolean \/ t = Unit \/ t = String ->
   evaluate fuel (Subtract l r) s = (o1 ++ o2, Raises InterpTypeError) /\
   evaluate fuel (Multiply l r) s = (o1 ++ o2, Raises InterpTypeError) /\
   (py_eq_zero rv = false ->
    evaluate fuel (Divide l r) s = (o1 ++ o2, Raises InterpTypeError))) /\
  (forall text, rv = VStr text -> py_eq_zero rv = false).
Proof.
  intros Hl Hr. split; [| split].
  - intros [-> | ->]; run_operands Hl Hr; cbn; rewrite app_nil_r; reflexivity.
  - intros Ht. repeat apply conj.
    + destruct Ht as [-> | [-> | ->]]; run_operands Hl Hr; cbn; rewrite app_nil_r;
        reflexivity.
    + destruct Ht as [-> | [-> | ->]]; run_operands Hl Hr; cbn; rewrite app_nil_r;
        reflexivity.
    + intros Hz.
      destruct Ht as [-> | [-> | ->]]; run_operands Hl Hr; rewrite Hz; cbn;
        rewrite app_nil_r; reflexivity.
  - intros text ->. reflexivity.
Qed.

Lemma arithmetic_rejects_other_types_witness :
  (evaluate 0 (Add (BooleanLiteral true) (BooleanLiteral true)) EmptyState
   = ([], Raises InterpTypeError)) /\
  (evaluate 0 (Subtract (StringLiteral "ab") (StringLiteral "a")) EmptyState
   = ([], Raises InterpTypeError) /\
   evaluate 0 (Multiply (StringLiteral "ab") (StringLiteral "a")) EmptyState
   = ([], Raises InterpTypeError) /\
   (py_eq_zero (VStr "a") = false ->
    evaluate 0 (Divide (StringLiteral "ab") (StringLiteral "a")) EmptyState
    = ([], Raises InterpTypeError))).
Proof.
  split.
  - apply (proj1 (arithmetic_rejects_other_types 0%nat
                    (BooleanLiteral true) (BooleanLiteral true) EmptyState
                    [] (VBool true) Boolean EmptyState [] (VBool true) EmptyState
                    eq_refl eq_refl)).
    left. reflexivity.
  - apply (proj1 (proj2 (arithmetic_rejects_other_types 0%nat
                           (StringLiteral "ab") (StringLiteral "a") EmptyState
                           [] (VStr "ab") String EmptyState [] (VStr "a") EmptyState
                           eq_refl eq_refl))).
    right. right. reflexivity.
Defined.

(** X16: on two [Integer] operands the six comparison nodes return, typed
    [Boolean], the truth of the integer order: [Lt] is true exactly when
    [a < b], [Lte] when [a <= b], [Gt] when [a > b], [Gte] when [a >= b],
    [Eq] when [a = b], [Ne] when [a <> b]. *)
Theorem integer_comparisons fuel l r s o1 a s1 o2 b s2 :
  evaluate fuel l s = (o1, Returns (VInt a, Integer, s1)) ->
  evaluate fuel r s1 = (o2, Returns (VInt b, Integer, s2)) ->
  exists lt le gt ge eq ne : bool,
    (evaluate fuel (Lt l r) s = (o1 ++ o2, Returns (VBool lt, Boolean, s2)) /\
     (lt = true <-> a < b)) /\
    (evaluate fuel (Lte l r) s = (o1 ++ o2, Returns (VBool le, Boolean, s2)) /\
     (le = true <-> a <= b)) /\
    (evaluate fuel (Gt l r) s = (o1 ++ o2, Returns (VBool gt, Boolean, s2)) /\
     (gt = true <-> a > b)) /\
    (evaluate fuel (Gte l r) s = (o1 ++ o2, Returns (VBool ge, Boolean, s2)) /\
     (ge = true <-> a >= b)) /\
    (evaluate fuel (Eq l r) s = (o1 ++ o2, Returns (VBool eq, Boolean, s2)) /\
     (eq = true <-> a = b)) /\
    (evaluate fuel (Ne l r) s = (o1 ++ o2, Returns (VBool ne, Boolean, s2)) /\
     (ne = true <-> a <> b)).
Proof.
  intros Hl Hr.
  exists (a <? b), (a <=? b), (b <? a), (b <=? a), (a =? b), (negb (a =? b)).
  repeat match goal with |- _ /\ _ => split end;
    try (run_operands Hl Hr; cbn; rewrite app_nil_r; reflexivity).
  - apply Z.ltb_lt.
  - apply Z.leb_le.
  - rewrite Z.ltb_lt. lia.
  - rewrite Z.leb_le. lia.
  - apply Z.eqb_eq.
  - rewrite negb_true_iff. apply Z.eqb_neq.
Qed.

Lemma integer_comparisons_witness :
  exists lt le gt ge eq ne : bool,
    (evaluate 0 (Lt (IntLiteral 2) (IntLiteral 3)) EmptyState
     = ([], Returns (VBool lt, Boolean, EmptyState)) /\ (lt = true <-> 2 < 3)) /\
    (evaluate 0 (Lte (IntLiteral 2) (IntLiteral 3)) EmptyState
     = ([], Returns (VBool le, Boolean, EmptyState)) /\ (le = true <-> 2 <= 3)) /\
    (evaluate 0 (Gt (IntLiteral 2) (IntLiteral 3)) EmptyState
     = ([], Returns (VBool gt, Boolean, EmptyState)) /\ (gt = true <-> 2 > 3)) /\
    (evaluate 0 (Gte (IntLiteral 2) (IntLiteral 3)) EmptyState
     = ([], Returns (VBool ge, Boolean, EmptyState)) /\ (ge = true <-> 2 >= 3)) /\
    (evaluate 0 (Eq (IntLiteral 2) (IntLiteral 3)) EmptyState
     = ([], Returns (VBool eq, Boolean, EmptyState)) /\ (eq = true <-> 2 = 3)) /\
    (evaluate 0 (Ne (IntLiteral 2) (IntLiteral 3)) EmptyState
     = ([], Returns (VBool ne, Boolean, EmptyState)) /\ (ne = true <-> 2 <> 3)).
Proof.
  apply (integer_comparisons 0%nat (IntLiteral 2) (IntLiteral 3) EmptyState
           [] 2 EmptyState [] 3 EmptyState);
    reflexivity.
Defined.

(** ** Print, If, and reading back an assignment *)

(** X17: [Print(e)] returns exactly what [e] returns, value, type and state,
    after writing one line behind the lines of [e]: the text [Unit] when the
    type is [Unit], the text of the payload otherwise.  When [e] raises,
    [Print(e)] raises the same and writes nothing of its own. *)
Theorem print_is_transparent fuel e s :
  (forall o v t s1,
      evaluate fuel e s = (o, Returns (v, t, s1)) ->
      evaluate fuel (Print e) s
      = (o ++ [if type_eqb t Unit then LineUnit else LineOf v], Returns (v, t, s1))) /\
  (forall o err,
      evaluate fuel e s = (o, Raises err) ->
      evaluate fuel (Print e) s = (o, Raises err)).
Proof.
  split.
  - intros o v t s1 He. cbn [evaluate]. rewrite He, bind_Returns. cbn beta iota.
    destruct t; reflexivity.
  - intros o err He. cbn [evaluate]. rewrite He. reflexivity.
Qed.

Lemma print_is_transparent_witness :
  evaluate 0 (Print (Print Ren)) EmptyState
  = ([LineUnit] ++ [if type_eqb Unit Unit then LineUnit else LineOf VNone],
     Returns (VNone, Unit, EmptyState)) /\
  evaluate 0 (Print (Variable_ "x")) EmptyState = ([], Raises InterpSyntaxError).
Proof.
  split.
  - apply (proj1 (print_is_transparent 0%nat (Print Ren) EmptyState)).
    reflexivity.
  - apply (proj2 (print_is_transparent 0%nat (Variable_ "x") EmptyState)).
    reflexivity.
Defined.

(** X18: [If] evaluates its condition and then exactly one branch, in the
    state the condition left: the [true] branch when the [Boolean] payload is
    truthy, the [false] branch otherwise; the other branch plays no part in
    the result.  A condition of another type is a type error and neither
    branch is evaluated. *)
Theorem if_takes_one_branch fuel c e_true e_false s o v t s1 :
  evaluate fuel c s = (o, Returns (v, t, s1)) ->
  (t = Boolean -> truthy v = true ->
   evaluate fuel (If c e_true e_false) s
   = (o ++ fst (evaluate fuel e_true s1), snd (evaluate fuel e_true s1))) /\
  (t = Boolean -> truthy v = false ->
   evaluate fuel (If c e_true e_false) s
   = (o ++ fst (evaluate fuel e_false s1), snd (evaluate fuel e_false s1))) /\
  (t <> Boolean ->
   evaluate fuel (If c e_true e_false) s = (o, Raises InterpTypeError)).
Proof.
  intros Hc. split; [| split].
  - intros -> Hv. cbn [evaluate]. rewrite Hc, bind_Returns. cbn beta iota.
    cbn [type_eqb negb]. rewrite Hv. reflexivity.
  - intros -> Hv. cbn [evaluate]. rewrite Hc, bind_Returns. cbn beta iota.
    cbn [type_eqb negb]. rewrite Hv. reflexivity.
  - intros Hne. apply type_eqb_neq in Hne.
    cbn [evaluate]. rewrite Hc, bind_Returns. cbn beta iota. rewrite Hne.
    cbn. rewrite app_nil_r. reflexivity.
Qed.

Lemma if_takes_one_branch_witness :
  let bad := Divide (IntLiteral 1) (IntLiteral 0) in
  evaluate 0 (If (BooleanLiteral true) (IntLiteral 1) bad) EmptyState
  = ([] ++ fst (evaluate 0 (IntLiteral 1) EmptyState),
     snd (evaluate 0 (IntLiteral 1) EmptyState)) /\
  evaluate 0 (If (BooleanLiteral false) bad (IntLiteral 2)) EmptyState
  = ([] ++ fst (evaluate 0 (IntLiteral 2) EmptyState),
     snd (evaluate 0 (IntLiteral 2) EmptyState)) /\
  evaluate 0 (If (IntLiteral 1) bad bad) EmptyState = ([], Raises InterpTypeError).
Proof.
  intros bad. split; [| split].
  - apply (proj1 (if_takes_one_branch 0%nat (BooleanLiteral true) (IntLiteral 1) bad
                    EmptyState [] (VBool true) Boolean EmptyState eq_refl));
      reflexivity.
  - apply (proj1 (proj2 (if_takes_one_branch 0%nat (BooleanLiteral false) bad (IntLiteral 2)
                           EmptyState [] (VBool false) Boolean EmptyState eq_refl)));
      reflexivity.
  - apply (proj2 (proj2 (if_takes_one_branch 0%nat (IntLiteral 1) bad bad
                           EmptyState [] (VInt 1) Integer EmptyState eq_refl))).
    discriminate.
Defined.

(** X19: a variable read right after its assignment gives what was assigned:
    when [e] returns [(v, t)] and the name is unbound or bound with type [t],
    [Sequence([Assign(x, e), Variable(x)])] returns [(v, t)] and the state
    with the new binding; when the name is bound with another type, the
    sequence raises the type error of the assignment. *)
Theorem assign_then_read fuel x e s o v t s1 :
  evaluate fuel e s = (o, Returns (v, t, s1)) ->
  (assignable s1 x t ->
   evaluate fuel (Sequence [Assign x e; Variable_ x]) s
   = (o, Returns (v, t, set_value s1 x v t))) /\
  (~ assignable s1 x t ->
   evaluate fuel (Sequence [Assign x e; Variable_ x]) s
   = (o, Raises InterpTypeError)).
Proof.
  intros He. unfold assignable.
  cbn [evaluate for_each]. rewrite He, bind_Returns. cbn beta iota.
  destruct (get_value s1 x) as [[v' t'] |] eqn:Hget; split; intros Hok.
  - subst t'. rewrite type_eqb_refl. cbn [negb ret fst snd].
    rewrite bind_Returns. cbn [set_value get_value]. rewrite String.eqb_refl.
    cbn. rewrite !app_nil_r. reflexivity.
  - assert (Hne : type_eqb t t' = false).
    { apply type_eqb_neq. intros ->. apply Hok. reflexivity. }
    rewrite Hne. cbn. rewrite app_nil_r. reflexivity.
  - cbn [ret fst snd]. rewrite bind_Returns. cbn [set_value get_value].
    rewrite String.eqb_refl. cbn. rewrite !app_nil_r. reflexivity.
  - exfalso. apply Hok. exact I.
Qed.

Lemma assign_then_read_witness :
  let s := StateNode "x" (VInt 1, Integer) EmptyState in
  evaluate 0 (Sequence [Assign "x" (Add (Variable_ "x") (IntLiteral 1)); Variable_ "x"]) s
  = ([], Returns (VInt 2, Integer, set_value s "x" (VInt 2) Integer)) /\
  evaluate 0 (Sequence [Assign "x" (StringLiteral "a"); Variable_ "x"]) s
  = ([], Raises InterpTypeError).
Proof.
  intros s. split.
  - apply (proj1 (assign_then_read 0%nat "x"%string (Add (Variable_ "x") (IntLiteral 1)) s
                    [] (VInt 2) Integer s eq_refl)).
    reflexivity.
  - apply (proj2 (assign_then_read 0%nat "x"%string (StringLiteral "a") s
                    [] (VStr "a") String s eq_refl)).
    unfold assignable. cbn. discriminate.
Defined.

(** ** Nesting sequences, unrolling loops *)

(** X20: a [Sequence] is no scope and no value of its own: a sequence of one
    expression evaluates as that expression, and wrapping a non-empty tail of
    a sequence in a [Sequence] of its own changes nothing, in any state. *)
Theorem sequence_nesting_is_flat fuel s :
  (forall e, evaluate fuel (Sequence [e]) s = evaluate fuel e s) /\
  (forall front tail,
      tail <> [] ->
      evaluate fuel (Sequence (front ++ [Sequence tail])) s
      = evaluate fuel (Sequence (front ++ tail)) s).
Proof.
  split.
  - intros e. cbn [evaluate for_each]. apply bind_ret_r.
  - intros front tail Htail. cbn [evaluate]. rewrite !for_each_app.
    apply bind_ext. intros [[v t] s1]. cbn [for_each evaluate].
    rewrite bind_ret_r.
    destruct tail as [| e tail]; [exfalso; apply Htail; reflexivity | reflexivity].
Qed.

Lemma sequence_nesting_is_flat_witness :
  let s := StateNode "x" (VInt 1, Integer) EmptyState in
  let a := Assign "y" (Variable_ "x") in
  let b := Print (Variable_ "y") in
  let c := Add (Variable_ "x") (Variable_ "y") in
  evaluate 0 (Sequence ([a] ++ [Sequence [b; c]])) s
  = evaluate 0 (Sequence ([a] ++ [b; c])) s.
Proof.
  intros s a b c.
  apply (proj2 (sequence_nesting_is_flat 0%nat s) [a] [b; c]).
  discriminate.
Defined.

(** A [While] that returned: its first condition was [Boolean] and its
    passes ended. *)
Lemma evaluate_While_inv fuel c b s o r :
  evaluate fuel (While c b) s = (o, Returns r) ->
  exists o0 v0 s0 k o1 s',
    evaluate fuel c s = (o0, Returns (v0, Boolean, s0)) /\
    passes fuel c b k v0 s0 o1 s' /\
    o = o0 ++ o1 /\ r = (VBool false, Boolean, s').
Proof.
  intros H. cbn [evaluate] in H.
  apply bind_inv_Returns in H as (o0 & [[v0 t0] s0] & o1 & Hc & H & ->).
  destruct (type_eqb t0 Boolean) eqn:Ht; cbn [negb] in H; [| discriminate H].
  apply type_eqb_eq in Ht. subst t0.
  apply bind_inv_Returns in H as (o2 & s2 & o3 & Hloop & Hret & ->).
  injection Hret as <- <-.
  apply passes_of_while_loop in Hloop as (k & _ & Hp).
  exists o0, v0, s0, k, o2, s2. rewrite app_nil_r. auto.
Qed.

(** X21: unrolling a loop once: whenever
    [If(c, Sequence([b, While(c, b)]), BooleanLiteral(false))] returns,
    [While(c, b)] returns the same value, type and state and prints the same
    lines, given fuel for one more pass. *)
Theorem while_unrolls_once fuel c b s o r :
  evaluate fuel (If c (Sequence [b; While c b]) (BooleanLiteral false)) s
  = (o, Returns r) ->
  exists fuel', forall n, (fuel' <= n)%nat ->
    evaluate n (While c b) s = (o, Returns r).
Proof.
  intros H. cbn [evaluate for_each] in H.
  apply bind_inv_Returns in H as (o0 & [[v0 t0] s0] & o1 & Hc & H & ->).
  destruct (type_eqb t0 Boolean) eqn:Ht; cbn [negb] in H; [| discriminate H].
  apply type_eqb_eq in Ht. subst t0.
  destruct (truthy v0) eqn:Hv.
  - apply bind_inv_Returns in H as (ob & [[bv bt] s1] & o2 & Hb & H & ->).
    rewrite bind_ret_r in H.
    change (evaluate fuel (While c b) s1 = (o2, Returns r)) in H.
    apply evaluate_While_inv in H
      as (oc & cv & s2 & k & o3 & s' & Hc1 & Hp & -> & ->).
    exists (Nat.max fuel (S k)). intros n Hn.
    rewrite (evaluate_While_of_passes fuel c b s o0 v0 s0 (S k)
               (ob ++ oc ++ o3) s' Hc) by
      first [exact Hn
            | eapply passes_more;
              [exact Hv | exact Hb | exact Hc1 | exact Hp | reflexivity]].
    reflexivity.
  - injection H as <- <-. exists fuel. intros n Hn.
    rewrite (evaluate_While n c b s o0 v0 s0)
      by (apply (evaluate_fuel_le fuel n); [exact Hn | exact Hc | discriminate]).
    assert (Hloop : while_loop (evaluate n) c b n v0 s0 = ([], Returns s0)).
    { destruct n; cbn [while_loop]; rewrite Hv; reflexivity. }
    rewrite Hloop. reflexivity.
Qed.

Lemma while_unrolls_once_witness :
  let c := Lt (Variable_ "i") (IntLiteral 2) in
  let b := Assign "i" (Add (Variable_ "i") (IntLiteral 1)) in
  let s := StateNode "i" (VInt 0, Integer) EmptyState in
  exists fuel', forall n, (fuel' <= n)%nat ->
    evaluate n (While c b) s
    = ([], Returns (VBool false, Boolean,
                    StateNode "i" (VInt 2, Integer) (StateNode "i" (VInt 1, Integer) s))).
Proof.
  intros c b s.
  apply (while_unrolls_once 1%nat c b s).
  reflexivity.
Defined.

(** ** Only Assign changes the state *)

(** X22: the evaluation of an expression with no [Assign] node returns the
    state it was given, loops and sequences included. *)
Theorem no_Assign_state_unchanged e :
  some_node is_Assign e = false ->
  forall fuel s o v t s',
    evaluate fuel e s = (o, Returns (v, t, s')) -> s' = s.
Proof.
  intros Hclean.
  assert (Hsame : forall fuel s, ensures (fun r => snd r = s) True (evaluate fuel e s)).
  { revert Hclean. induction e as [e IH] using Expr_children_ind.
    intros Hclean fuel s.
    pose proof (some_node_here _ _ Hclean) as Hhere.
    destruct e; try discriminate Hhere.
    all: try solve [split_clean_children IH Hclean; cbn [evaluate];
                    repeat (ensures_step; cbn [snd] in *; subst); eauto].
    - apply some_node_children in Hclean. cbn [children] in IH, Hclean.
      cbn [evaluate].
      apply for_each_ensures with (Inv := fun s1 => s1 = s); [auto | | reflexivity].
      eapply Forall_impl; [| exact (Forall_clean _ _ _ IH Hclean)].
      cbn beta. intros e1 H1 s1 ->. apply H1.
    - apply some_node_children in Hclean. cbn [children] in IH, Hclean.
      cbn [evaluate].
      apply for_each_ensures with (Inv := fun s1 => s1 = s); [auto | | reflexivity].
      eapply Forall_impl; [| exact (Forall_clean _ _ _ IH Hclean)].
      cbn beta. intros e1 H1 s1 ->. apply H1.
    - split_clean_children IH Hclean. cbn [evaluate].
      eapply ensures_bind; [apply IH0 | intros [[cv ct] s1] H1; cbn [snd] in H1; subst s1].
      destruct (negb (type_eqb ct Boolean)); [apply ensures_raise |].
      eapply ensures_bind with (P := fun s1 => s1 = s);
        [| intros s2 ->; apply ensures_ret; reflexivity].
      apply while_loop_ensures with (P := fun r => snd r = s);
        [auto | intros s2 ->; apply IH0 | intros s2 ->; apply IH1 | reflexivity]. }
  intros fuel s o v t s' He.
  exact (ensures_Returns _ _ _ _ _ (Hsame fuel s) He).
Qed.

Lemma no_Assign_state_unchanged_witness :
  let s := StateNode "x" (VInt 3, Integer) EmptyState in
  s = s.
Proof.
  intros s.
  apply (no_Assign_state_unchanged
           (Sequence [Print (Variable_ "x"); Lt (Variable_ "x") (IntLiteral 5)])
           eq_refl 0%nat s [LineOf (VInt 3)] (VBool true) Boolean s).
  reflexivity.
Defined.
